(** * Permit helper: permit identification, field validation, form filling
      and the tool handler

    A shallow embedding of [permit_matcher.py], [form_filler.py] and
    [handle_call_tool] of [server.py], and the properties of the
    specification stated over it.

    Conventions of the embedding.
    - A Python [str] is a [string]; concatenation, [join], [==] and the
      substring test [in] are the ones defined in [Str].  [str.lower]
      belongs to the runtime and is a parameter, [lower]; [Str.ascii_lower]
      is what it does on ASCII text and serves to run examples.
    - A JSON-shaped Python value is a [value] with Python's truthiness; a
      [dict] with string keys is a [gmap string value], a permit record of
      the rules file is a [Permit].
    - The clock, the template and output files, the document engine and the
      raising of exceptions are explicit: a computation takes a [World] and
      gives an [outcome], returned or raised, and the [World] it leaves.
      What the engine does with a template is not modelled; whether it
      raises is asked of the [Runtime].
    - The arguments of a tool call are absent or of the type their input
      schema declares.  The text layout of the two preview reports is a
      function of the [Runtime]. *)

From Stdlib Require Import ZArith Ascii String.
From Stdlib Require Import Floats.SpecFloat.
From stdpp Require Import base option gmap strings pretty list fin_maps.

Local Open Scope Z_scope.
Local Open Scope string_scope.

(** ** Strings *)

Module Str.

(** [needle.startswith]-style test used by the substring search. *)
Fixpoint starts_with (t s : string) : bool :=
  match t, s with
  | EmptyString, _ => true
  | String _ _, EmptyString => false
  | String a t', String b s' => if decide (a = b) then starts_with t' s' else false
  end.

(** Python's [t in s] on two strings. *)
Fixpoint occurs_in (t s : string) : bool :=
  starts_with t s ||
  match s with
  | EmptyString => false
  | String _ s' => occurs_in t s'
  end.

(** [t] occurs in [s]: what [occurs_in] decides. *)
Definition substring (t s : string) : Prop :=
  exists pre post : string, s = pre +:+ t +:+ post.

(** Python's [sep.join(l)]. *)
Fixpoint join (sep : string) (l : list string) : string :=
  match l with
  | [] => ""
  | [x] => x
  | x :: xs => x +:+ sep +:+ join sep xs
  end.

(** [str.lower] on ASCII text. *)
Definition ascii_lower_char (c : ascii) : ascii :=
  let n := nat_of_ascii c in
  if Nat.leb 65 n && Nat.leb n 90 then ascii_of_nat (n + 32) else c.

Fixpoint ascii_lower (s : string) : string :=
  match s with
  | EmptyString => EmptyString
  | String c s' => String (ascii_lower_char c) (ascii_lower s')
  end.

End Str.

(** What the proofs of the blank request use of [str.lower]: only the empty
    string lower-cases to the empty string, and only the single space to
    the single space. *)
Definition lower_keeps_blank (lower : string -> string) : Prop :=
  forall s : string, (lower s = "" <-> s = "") /\ (lower s = " " <-> s = " ").

(** ** Values *)

(** JSON-shaped Python values, as [json.load] and the tool arguments
    produce them. *)
#[warnings="-register-all"]
Inductive value : Type :=
  | VNone
  | VBool (b : bool)
  | VInt (z : Z)
  | VFloat (f : spec_float)
  | VStr (s : string)
  | VList (l : list value)
  | VDict (d : list (string * value)).

(** Python truthiness, the meaning of [not v] and [if v]. *)
Definition truthy (v : value) : bool :=
  match v with
  | VNone => false
  | VBool b => b
  | VInt z => negb (Z.eqb z 0)
  | VFloat (S754_zero _) => false
  | VFloat _ => true
  | VStr s => negb (bool_decide (s = ""))
  | VList l => match l with [] => false | _ => true end
  | VDict d => match d with [] => false | _ => true end
  end.

(** ** Permit rules *)

(** One record of [rules['permits']]. *)
Record Permit : Type := mkPermit {
  p_id : string;
  p_name : string;
  p_triggers : list string;
  p_requiredFields : list string;
  p_template : string
}.

(** The dict [identify_permits] appends for a matching permit. *)
Record PermitInfo : Type := mkPermitInfo {
  i_id : string;
  i_name : string;
  i_template : string;
  i_requiredFields : list string
}.

(** The dict [list_all_permits] builds for a permit. *)
Record PermitListing : Type := mkPermitListing {
  l_id : string;
  l_name : string;
  l_triggers : list string
}.

(** The result of [validate_required_fields]. *)
Record Validation : Type := mkValidation {
  valid : bool;
  missingFields : list string
}.

(** ** PermitMatcher *)

Section PermitMatcher.

(** [str.lower]. *)
Variable lower : string -> string.

(** [self.rules['permits']]. *)
Variable permits : list Permit.

Definition permit_info (permit : Permit) : PermitInfo :=
  {| i_id := p_id permit;
     i_name := p_name permit;
     i_template := p_template permit;
     i_requiredFields := p_requiredFields permit |}.

(** [f"{project_description} {' '.join(work_types)}".lower()] *)
Definition search_text (project_description : string) (work_types : list string) : string :=
  lower (project_description +:+ " " +:+ Str.join " " work_types).

(** [any(trigger.lower() in search_text for trigger in permit['triggers'])] *)
Definition matches (text : string) (permit : Permit) : bool :=
  existsb (fun trigger => Str.occurs_in (lower trigger) text) (p_triggers permit).

(** The loop of [identify_permits]: [required_permits] is the list
    built so far. *)
Fixpoint identify_loop (text : string) (rest : list Permit)
    (required_permits : list PermitInfo) : list PermitInfo :=
  match rest with
  | [] => required_permits
  | permit :: rest' =>
      if matches text permit
      then identify_loop text rest' (required_permits ++ [permit_info permit])
      else identify_loop text rest' required_permits
  end.

Definition identify_permits (project_description : string)
    (work_types : option (list string)) : list PermitInfo :=
  let work_types := match work_types with None => [] | Some l => l end in
  let text := search_text project_description work_types in
  identify_loop text permits [].

(** [permit['id'] == permit_id], where [permit_id] may be [None]. *)
Definition id_equals (permit : Permit) (permit_id : option string) : bool :=
  match permit_id with
  | Some s => bool_decide (p_id permit = s)
  | None => false
  end.

Fixpoint get_permit_loop (rest : list Permit) (permit_id : option string) : option Permit :=
  match rest with
  | [] => None
  | permit :: rest' =>
      if id_equals permit permit_id then Some permit
      else get_permit_loop rest' permit_id
  end.

Definition get_permit_by_id (permit_id : option string) : option Permit :=
  get_permit_loop permits permit_id.

Definition list_all_permits : list PermitListing :=
  map (fun permit => {| l_id := p_id permit;
                        l_name := p_name permit;
                        l_triggers := p_triggers permit |}) permits.

End PermitMatcher.

(** ** FormFiller.validate_required_fields *)

(** [field not in project_data or not project_data[field]] *)
Definition field_missing (project_data : gmap string value) (field : string) : bool :=
  match project_data !! field with
  | None => true
  | Some v => negb (truthy v)
  end.

(** The list comprehension of [validate_required_fields]. *)
Fixpoint missing_of (project_data : gmap string value) (required_fields : list string)
    : list string :=
  match required_fields with
  | [] => []
  | field :: rest =>
      if field_missing project_data field
      then field :: missing_of project_data rest
      else missing_of project_data rest
  end.

Definition validate_required_fields (project_data : gmap string value)
    (required_fields : list string) : Validation :=
  let missing_fields := missing_of project_data required_fields in
  {| valid := Nat.eqb (List.length missing_fields) 0;
     missingFields := missing_fields |}.

(** ** Clock readings and [strftime] *)

(** A reading of [datetime.now()]. *)
Record datetime : Type := mkDatetime {
  year : Z;
  month : Z;
  day : Z;
  hour : Z;
  minute : Z;
  second : Z
}.

(** The ranges of the fields of a clock reading.  [%Y] prints a year of
    four digits as it is; the C libraries differ on shorter years, which a
    running clock does not show. *)
Definition valid_datetime (d : datetime) : Prop :=
  1000 <= year d <= 9999 /\ 1 <= month d <= 12 /\ 1 <= day d <= 31 /\
  0 <= hour d <= 23 /\ 0 <= minute d <= 59 /\ 0 <= second d <= 59.

Module Strftime.

(** The last decimal digit of [n], as a character. *)
Definition digit (n : Z) : ascii := ascii_of_nat (48 + Z.to_nat (n mod 10)).

(** [%m], [%d], [%H], [%M], [%S]: two digits, zero-padded. *)
Definition two (n : Z) : string :=
  String (digit (n / 10)) (String (digit n) "").

(** [%Y] of a four-digit year. *)
Definition four (n : Z) : string :=
  String (digit (n / 1000)) (String (digit (n / 100)) (two n)).

(** [strftime('%m/%d/%Y')] *)
Definition mdY (d : datetime) : string :=
  two (month d) +:+ "/" +:+ two (day d) +:+ "/" +:+ four (year d).

(** [strftime('%Y%m%d-%H%M%S')] *)
Definition YmdHMS (d : datetime) : string :=
  four (year d) +:+ two (month d) +:+ two (day d) +:+ "-" +:+
  two (hour d) +:+ two (minute d) +:+ two (second d).

(** Reading a decimal numeral back, to state what the formats print. *)
Definition digit_value (c : ascii) : Z := Z.of_nat (nat_of_ascii c) - 48.

Fixpoint number_from (acc : Z) (s : string) : Z :=
  match s with
  | EmptyString => acc
  | String c s' => number_from (10 * acc + digit_value c) s'
  end.

Definition number (s : string) : Z := number_from 0 s.

Fixpoint all_digits (s : string) : bool :=
  match s with
  | EmptyString => true
  | String c s' =>
      Nat.leb 48 (nat_of_ascii c) && Nat.leb (nat_of_ascii c) 57 && all_digits s'
  end.

(** A numeral of [width] digits that reads as [n]. *)
Definition numeral (width : nat) (n : Z) (s : string) : Prop :=
  String.length s = width /\ all_digits s = true /\ number s = n.

(** [s] is the date of [d] as zero-padded month/day/year. *)
Definition month_day_year (d : datetime) (s : string) : Prop :=
  exists mm dd yyyy,
    s = mm +:+ "/" +:+ dd +:+ "/" +:+ yyyy /\
    numeral 2 (month d) mm /\ numeral 2 (day d) dd /\ numeral 4 (year d) yyyy.

(** [s] is the time of [d] as YYYYMMDD-HHMMSS. *)
Definition stamp (d : datetime) (s : string) : Prop :=
  exists yyyy mm dd HH MM SS,
    s = yyyy +:+ mm +:+ dd +:+ "-" +:+ HH +:+ MM +:+ SS /\
    numeral 4 (year d) yyyy /\ numeral 2 (month d) mm /\ numeral 2 (day d) dd /\
    numeral 2 (hour d) HH /\ numeral 2 (minute d) MM /\ numeral 2 (second d) SS.

(** The first comparison that is not [Eq] decides. *)
Definition lex (c1 c2 : comparison) : comparison :=
  match c1 with
  | Eq => c2
  | _ => c1
  end.

(** Which of two clock readings is the earlier. *)
Definition chronological (d d' : datetime) : comparison :=
  lex (Z.compare (year d) (year d'))
    (lex (Z.compare (month d) (month d'))
       (lex (Z.compare (day d) (day d'))
          (lex (Z.compare (hour d) (hour d'))
             (lex (Z.compare (minute d) (minute d'))
                (Z.compare (second d) (second d')))))).

End Strftime.

(** ** The world: clock, file system, document engine *)

(** A [DocxTemplate] object: the template it was opened on and, once
    rendered, the payload it was rendered with. *)
Record Docx : Type := mkDocx {
  doc_template : string;
  doc_payload : option (gmap string value)
}.

Record World : Type := mkWorld {
  (** how many times the clock has been read *)
  tick : nat;
  (** the paths at which a template file exists *)
  fs_templates : gset string;
  (** the documents saved so far, by path *)
  fs_files : gmap string Docx;
  (** the calls of [doc.render], oldest first: template path and payload *)
  render_log : list (string * gmap string value)
}.

(** The Python exceptions of the program ([EngineError] stands for
    whatever the document engine or the operating system raises), all
    subclasses of [Exception]. *)
Inductive exn : Type :=
  | ValueError (msg : string)
  | FileNotFoundError (msg : string)
  | AttributeError (msg : string)
  | TypeError (msg : string)
  | EngineError (msg : string).

(** [str(e)] *)
Definition str_exn (e : exn) : string :=
  match e with
  | ValueError msg | FileNotFoundError msg | AttributeError msg
  | TypeError msg | EngineError msg => msg
  end.

Inductive outcome (A : Type) : Type :=
  | Returned (a : A)
  | Raised (e : exn).
Arguments Returned {A} a.
Arguments Raised {A} e.

(** A computation that reads and changes the world and may raise. *)
Definition M (A : Type) : Type := World -> outcome A * World.

#[global] Instance M_ret : MRet M := fun A a w => (Returned a, w).

#[global] Instance M_bind : MBind M := fun A B f m w =>
  match m w with
  | (Returned a, w') => f a w'
  | (Raised e, w') => (Raised e, w')
  end.

Definition raise {A : Type} (e : exn) : M A := fun w => (Raised e, w).

(** [try: body  except Exception as e: handler e] *)
Definition try_except {A : Type} (body : M A) (handler : exn -> M A) : M A :=
  fun w =>
    match body w with
    | (Returned a, w') => (Returned a, w')
    | (Raised e, w') => handler e w'
    end.

(** What the program takes from its runtime and its libraries. *)
Record Runtime : Type := mkRuntime {
  (** [str.lower] *)
  rt_lower : string -> string;
  (** the successive readings of [datetime.now()] *)
  rt_clock : nat -> datetime;
  (** [str(dir / name)] of [pathlib] *)
  rt_joinpath : string -> string -> string;
  (** [str(path.absolute())] *)
  rt_absolute : string -> string;
  (** the exception, if any, that [DocxTemplate(path)], [doc.render(data)]
      and [doc.save(path)] raise *)
  rt_open_error : World -> string -> option exn;
  rt_render_error : World -> string -> gmap string value -> option exn;
  rt_save_error : World -> Docx -> string -> option exn;
  (** [json.dumps(v, indent=2)] *)
  rt_json_dumps : value -> string;
  (** the text layout of the two preview reports *)
  rt_preview_layout : Permit -> Validation -> gmap string value -> datetime -> datetime -> string;
  rt_preview_all_layout : list (Permit * Validation) -> gmap string value -> string
}.

(** The three ways the program changes the world. *)
Definition clock_read (w : World) : World :=
  {| tick := S (tick w); fs_templates := fs_templates w;
     fs_files := fs_files w; render_log := render_log w |}.

Definition render_logged (template_path : string) (data : gmap string value)
    (w : World) : World :=
  {| tick := tick w; fs_templates := fs_templates w; fs_files := fs_files w;
     render_log := render_log w ++ [(template_path, data)] |}.

Definition file_saved (path : string) (doc : Docx) (w : World) : World :=
  {| tick := tick w; fs_templates := fs_templates w;
     fs_files := <[path := doc]> (fs_files w); render_log := render_log w |}.

Section Effects.

Variable R : Runtime.

(** [datetime.now()] *)
Definition now : M datetime := fun w =>
  (Returned (rt_clock R (tick w)), clock_read w).

(** [path.exists()] *)
Definition path_exists (path : string) : M bool := fun w =>
  (Returned (bool_decide (path ∈ fs_templates w)), w).

(** [DocxTemplate(path)] *)
Definition DocxTemplate (path : string) : M Docx := fun w =>
  match rt_open_error R w path with
  | Some e => (Raised e, w)
  | None => (Returned {| doc_template := path; doc_payload := None |}, w)
  end.

(** [doc.render(data)]: the call is logged, then the engine renders or
    raises. *)
Definition docx_render (doc : Docx) (data : gmap string value) : M Docx := fun w =>
  match rt_render_error R w (doc_template doc) data with
  | Some e => (Raised e, render_logged (doc_template doc) data w)
  | None =>
      (Returned {| doc_template := doc_template doc; doc_payload := Some data |},
       render_logged (doc_template doc) data w)
  end.

(** [doc.save(path)] *)
Definition docx_save (doc : Docx) (path : string) : M unit := fun w =>
  match rt_save_error R w doc path with
  | Some e => (Raised e, w)
  | None => (Returned tt, file_saved path doc w)
  end.

End Effects.

(** ** FormFiller.fill_permit *)

Record FormFiller : Type := mkFormFiller {
  templates_dir : string;
  output_dir : string
}.

(** The dict literal
    [{**project_data, 'permitDate': .., 'applicationDate': ..,
      'currentDate': .., 'year': ..}],
    with [d1] .. [d4] the four clock readings in the order the literal
    takes them. *)
Definition fill_data (project_data : gmap string value) (d1 d2 d3 d4 : datetime)
    : gmap string value :=
  <["year" := VInt (year d4)]>
    (<["currentDate" := VStr (Strftime.mdY d3)]>
       (<["applicationDate" := VStr (Strftime.mdY d2)]>
          (<["permitDate" := VStr (Strftime.mdY d1)]> project_data))).

(** [f"{permit_id}-permit-{timestamp}.docx"] *)
Definition output_filename (permit_id : string) (timestamp : string) : string :=
  permit_id +:+ "-permit-" +:+ timestamp +:+ ".docx".

(** The dict [fill_permit] returns. *)
Definition fill_result (permit_name file path : string) : value :=
  VDict [("success", VBool true);
         ("permitName", VStr permit_name);
         ("outputFile", VStr file);
         ("outputPath", VStr path);
         ("message", VStr (permit_name +:+ " has been filled and saved"))].

Section FormFiller.

Variable R : Runtime.
Variable self : FormFiller.

Definition fill_permit (template_name permit_id permit_name : string)
    (project_data : gmap string value) : M value :=
  let template_path := rt_joinpath R (templates_dir self) template_name in
  found ← path_exists template_path;
  if negb found
  then raise (FileNotFoundError ("Template not found: " +:+ template_path))
  else
    doc ← DocxTemplate R template_path;
    d1 ← now R;
    d2 ← now R;
    d3 ← now R;
    d4 ← now R;
    doc ← docx_render R doc (fill_data project_data d1 d2 d3 d4);
    d5 ← now R;
    let timestamp := Strftime.YmdHMS d5 in
    let file := output_filename permit_id timestamp in
    let output_path := rt_joinpath R (output_dir self) file in
    _ ← docx_save R doc output_path;
    mret (fill_result permit_name file (rt_absolute R output_path)).

End FormFiller.

(** ** The tool handler of [server.py] *)

(** The argument bag of a tool call: each key of the tools' input
    schemas is absent ([None]) or carries a value of its schema type. *)
Record Arguments : Type := mkArguments {
  projectDescription : option string;
  workTypes : option (list string);
  permitId : option string;
  projectData : option (gmap string value)
}.

(** [types.TextContent(type="text", text=..)] *)
Record TextContent : Type := mkTextContent { text : string }.

(** [str(x)] of a string or [None], as an f-string prints it. *)
Definition str_opt (x : option string) : string :=
  match x with
  | Some s => s
  | None => "None"
  end.

Definition strs (l : list string) : value := VList (map VStr l).

Definition info_value (i : PermitInfo) : value :=
  VDict [("id", VStr (i_id i));
         ("name", VStr (i_name i));
         ("template", VStr (i_template i));
         ("requiredFields", strs (i_requiredFields i))].

Definition listing_value (l : PermitListing) : value :=
  VDict [("id", VStr (l_id l));
         ("name", VStr (l_name l));
         ("triggers", strs (l_triggers l))].

(** The payload of [fill_permit_form] and the entry of
    [fill_all_required_permits] for missing fields. *)
Definition missing_payload (permit : Permit) (validation : Validation) : value :=
  VDict [("success", VBool false);
         ("error", VStr "Missing required fields");
         ("missingFields", strs (missingFields validation));
         ("permitName", VStr (p_name permit))].

Definition missing_entry (permit : Permit) (validation : Validation) : value :=
  VDict [("success", VBool false);
         ("permitId", VStr (p_id permit));
         ("permitName", VStr (p_name permit));
         ("error", VStr "Missing required fields");
         ("missingFields", strs (missingFields validation))].

(** The entry of [fill_all_required_permits] for a raised exception. *)
Definition error_entry (permit_info : PermitInfo) (e : exn) : value :=
  VDict [("success", VBool false);
         ("permitId", VStr (i_id permit_info));
         ("error", VStr (str_exn e))].

Section Server.

Variable R : Runtime.
(** [permit_matcher.rules['permits']] and [form_filler] *)
Variable permits : list Permit.
Variable form_filler : FormFiller.

(** [arguments.get(key, default)]; [arguments] may be [None]. *)
Definition arguments_get {A : Type} (arguments : option Arguments)
    (key : Arguments -> option A) : M (option A) :=
  match arguments with
  | None => raise (AttributeError "'NoneType' object has no attribute 'get'")
  | Some a => mret (key a)
  end.

Definition arguments_get_default {A : Type} (arguments : option Arguments)
    (key : Arguments -> option A) (fallback : A) : M A :=
  x ← arguments_get arguments key;
  mret (default fallback x).

(** [permit[key]] on the result of [get_permit_by_id] *)
Definition subscript (permit : option Permit) : M Permit :=
  match permit with
  | None => raise (TypeError "'NoneType' object is not subscriptable")
  | Some p => mret p
  end.

(** The body of the loop of [fill_all_required_permits], inside its
    [try]. *)
Definition fill_one (project_data : gmap string value) (permit_info : PermitInfo)
    : M value :=
  permit ← subscript (get_permit_by_id permits (Some (i_id permit_info)));
  let validation := validate_required_fields project_data (p_requiredFields permit) in
  if negb (valid validation)
  then mret (missing_entry permit validation)
  else fill_permit R form_filler (p_template permit) (p_id permit) (p_name permit)
         project_data.

Fixpoint fill_all_loop (project_data : gmap string value)
    (required_permits : list PermitInfo) (results : list value) : M (list value) :=
  match required_permits with
  | [] => mret results
  | permit_info :: rest =>
      entry ← try_except (fill_one project_data permit_info)
                (fun e => mret (error_entry permit_info e));
      fill_all_loop project_data rest (results ++ [entry])
  end.

(** The loop of [preview_all_permits]. *)
Fixpoint preview_all_loop (project_data : gmap string value)
    (required_permits : list PermitInfo) (seen : list (Permit * Validation))
    : M (list (Permit * Validation)) :=
  match required_permits with
  | [] => mret seen
  | permit_info :: rest =>
      permit ← subscript (get_permit_by_id permits (Some (i_id permit_info)));
      let validation := validate_required_fields project_data (p_requiredFields permit) in
      preview_all_loop project_data rest (seen ++ [(permit, validation)])
  end.

Definition respond_text (s : string) : list TextContent := [ {| text := s |} ].

Definition respond_json (v : value) : list TextContent :=
  respond_text (rt_json_dumps R v).

(** [permit = permit_matcher.get_permit_by_id(permit_id)] followed by
    [if not permit: raise ValueError(f"Permit not found: {permit_id}")];
    a permit record is a non-empty dict, hence true. *)
Definition lookup_permit (permit_id : option string) : M Permit :=
  match get_permit_by_id permits permit_id with
  | None => raise (ValueError ("Permit not found: " +:+ str_opt permit_id))
  | Some permit => mret permit
  end.

Definition opt_value (x : option string) : value :=
  match x with
  | Some s => VStr s
  | None => VNone
  end.

Definition tool_identify_required_permits (arguments : option Arguments)
    : M (list TextContent) :=
  project_description ← arguments_get_default arguments projectDescription "";
  work_types ← arguments_get_default arguments workTypes [];
  let required_permits :=
    identify_permits (rt_lower R) permits project_description (Some work_types) in
  let count := List.length required_permits in
  mret (respond_json
    (VDict [("requiredPermits", VList (map info_value required_permits));
            ("count", VInt (Z.of_nat count));
            ("message",
             VStr (match required_permits with
                   | [] => "No permits required based on description"
                   | _ => "Found " +:+ pretty count +:+ " required permit(s)"
                   end))])).

Definition tool_preview_permit (arguments : option Arguments) : M (list TextContent) :=
  permit_id ← arguments_get arguments permitId;
  project_data ← arguments_get_default arguments projectData ∅;
  permit ← lookup_permit permit_id;
  let validation := validate_required_fields project_data (p_requiredFields permit) in
  d1 ← now R;
  d2 ← now R;
  mret (respond_text (rt_preview_layout R permit validation project_data d1 d2)).

Definition tool_preview_all_permits (arguments : option Arguments)
    : M (list TextContent) :=
  project_description ← arguments_get_default arguments projectDescription "";
  project_data ← arguments_get_default arguments projectData ∅;
  let required_permits :=
    identify_permits (rt_lower R) permits project_description None in
  match required_permits with
  | [] => mret (respond_text "No permits required for this project description.")
  | _ =>
      seen ← preview_all_loop project_data required_permits [];
      mret (respond_text (rt_preview_all_layout R seen project_data))
  end.

Definition tool_fill_permit_form (arguments : option Arguments) : M (list TextContent) :=
  permit_id ← arguments_get arguments permitId;
  project_data ← arguments_get_default arguments projectData ∅;
  permit ← lookup_permit permit_id;
  let validation := validate_required_fields project_data (p_requiredFields permit) in
  if negb (valid validation)
  then mret (respond_json (missing_payload permit validation))
  else
    result ← fill_permit R form_filler (p_template permit) (p_id permit) (p_name permit)
               project_data;
    mret (respond_json result).

(** The dict [fill_all_required_permits] serialises. *)
Definition fill_all_payload (results : list value) : value :=
  VDict [("totalPermits", VInt (Z.of_nat (List.length results)));
         ("results", VList results);
         ("message", VStr "All required permits have been processed")].

Definition tool_fill_all_required_permits (arguments : option Arguments)
    : M (list TextContent) :=
  project_description ← arguments_get_default arguments projectDescription "";
  work_types ← arguments_get_default arguments workTypes [];
  project_data ← arguments_get_default arguments projectData ∅;
  let required_permits :=
    identify_permits (rt_lower R) permits project_description (Some work_types) in
  match required_permits with
  | [] => mret (respond_text "No permits required for this project")
  | _ =>
      results ← fill_all_loop project_data required_permits [];
      mret (respond_json (fill_all_payload results))
  end.

Definition tool_list_available_permits : M (list TextContent) :=
  let listed := list_all_permits permits in
  mret (respond_json
    (VDict [("permits", VList (map listing_value listed));
            ("count", VInt (Z.of_nat (List.length listed)))])).

Definition tool_validate_permit_data (arguments : option Arguments)
    : M (list TextContent) :=
  permit_id ← arguments_get arguments permitId;
  project_data ← arguments_get_default arguments projectData ∅;
  permit ← lookup_permit permit_id;
  let validation := validate_required_fields project_data (p_requiredFields permit) in
  mret (respond_json
    (VDict [("permitId", opt_value permit_id);
            ("permitName", VStr (p_name permit));
            ("valid", VBool (valid validation));
            ("missingFields", strs (missingFields validation));
            ("requiredFields", strs (p_requiredFields permit))])).

(** The [if]/[elif] chain inside the [try] of [handle_call_tool]. *)
Definition dispatch (name : string) (arguments : option Arguments)
    : M (list TextContent) :=
  if bool_decide (name = "identify_required_permits")
  then tool_identify_required_permits arguments
  else if bool_decide (name = "preview_permit")
  then tool_preview_permit arguments
  else if bool_decide (name = "preview_all_permits")
  then tool_preview_all_permits arguments
  else if bool_decide (name = "fill_permit_form")
  then tool_fill_permit_form arguments
  else if bool_decide (name = "fill_all_required_permits")
  then tool_fill_all_required_permits arguments
  else if bool_decide (name = "list_available_permits")
  then tool_list_available_permits
  else if bool_decide (name = "validate_permit_data")
  then tool_validate_permit_data arguments
  else raise (ValueError ("Unknown tool: " +:+ name)).

Definition handle_call_tool (name : string) (arguments : option Arguments)
    : M (list TextContent) :=
  try_except (dispatch name arguments)
    (fun e => mret (respond_text ("Error: " +:+ str_exn e))).

End Server.

(** ** A concrete runtime and catalog, to run the program on *)

Module Demo.

Definition quote : string := String "034"%char "".

(** A compact rendering of a value, enough to tell payloads apart. *)
Fixpoint dumps (v : value) : string :=
  match v with
  | VNone => "null"
  | VBool true => "true"
  | VBool false => "false"
  | VInt z => pretty z
  | VFloat _ => "<float>"
  | VStr s => quote +:+ s +:+ quote
  | VList l => "[" +:+ Str.join ", " (map dumps l) +:+ "]"
  | VDict d =>
      "{" +:+
      Str.join ", "
        (map (fun kv => match kv with
                        | (k, x) => quote +:+ k +:+ quote +:+ ": " +:+ dumps x
                        end) d) +:+
      "}"
  end.

(** 7 March 2024, 14:05 and as many seconds as the clock was read,
    within the minute. *)
Definition clock (n : nat) : datetime :=
  {| year := 2024; month := 3; day := 7; hour := 14; minute := 5;
     second := Z.of_nat n mod 60 |}.

Definition runtime : Runtime :=
  {| rt_lower := Str.ascii_lower;
     rt_clock := clock;
     rt_joinpath := fun dir name => dir +:+ "/" +:+ name;
     rt_absolute := fun path => path;
     rt_open_error := fun _ _ => None;
     rt_render_error := fun _ _ _ => None;
     rt_save_error := fun _ _ _ => None;
     rt_json_dumps := dumps;
     rt_preview_layout := fun permit _ _ _ _ => "PERMIT PREVIEW: " +:+ p_name permit;
     rt_preview_all_layout := fun _ _ => "PREVIEW: ALL REQUIRED PERMITS" |}.

(** The same runtime with a document engine that fails to render. *)
Definition failing_runtime : Runtime :=
  {| rt_lower := Str.ascii_lower;
     rt_clock := clock;
     rt_joinpath := fun dir name => dir +:+ "/" +:+ name;
     rt_absolute := fun path => path;
     rt_open_error := fun _ _ => None;
     rt_render_error := fun _ _ _ => Some (EngineError "template syntax error");
     rt_save_error := fun _ _ _ => None;
     rt_json_dumps := dumps;
     rt_preview_layout := fun permit _ _ _ _ => "PERMIT PREVIEW: " +:+ p_name permit;
     rt_preview_all_layout := fun _ _ => "PREVIEW: ALL REQUIRED PERMITS" |}.

Definition electrical : Permit :=
  {| p_id := "electrical";
     p_name := "Electrical Permit";
     p_triggers := ["electrical work"; "wiring"];
     p_requiredFields := ["ownerName"; "electricianLicense"];
     p_template := "electrical.docx" |}.

Definition building : Permit :=
  {| p_id := "building";
     p_name := "Building Permit";
     p_triggers := ["Construction"; "addition"];
     p_requiredFields := ["ownerName"; "projectAddress"];
     p_template := "building.docx" |}.

Definition catalog : list Permit := [building; electrical].

Definition filler : FormFiller :=
  {| templates_dir := "templates"; output_dir := "output" |}.

(** Both templates are on disk, nothing has been saved or rendered. *)
Definition world : World :=
  {| tick := 0;
     fs_templates := {[ "templates/building.docx"; "templates/electrical.docx" ]};
     fs_files := ∅;
     render_log := [] |}.

Definition jane : gmap string value := {[ "ownerName" := VStr "Jane" ]}.

Definition jane_full : gmap string value :=
  <["electricianLicense" := VStr "EL-204"]> (<["projectAddress" := VStr "1 Elm St"]> jane).

Definition args (description : string) (data : gmap string value) : Arguments :=
  {| projectDescription := Some description;
     workTypes := None;
     permitId := None;
     projectData := Some data |}.

Definition args_for (permit_id : string) (data : gmap string value) : Arguments :=
  {| projectDescription := None;
     workTypes := None;
     permitId := Some permit_id;
     projectData := Some data |}.

End Demo.


(** ** How [fill_all_required_permits] processes the resolved permits *)



(** The names the handler knows. *)
Definition tool_names : list string :=
  ["identify_required_permits"; "preview_permit"; "preview_all_permits";
   "fill_permit_form"; "fill_all_required_permits"; "list_available_permits";
   "validate_permit_data"].

(** ** Further definitions *)

(** What the proofs on the request text use of [str.lower]: the empty string
    lower-cases to itself, and a text lower-cases part by part on either
    side of a space. *)
Definition lower_splits_at_space (lower : string -> string) : Prop :=
  lower "" = "" /\
  forall a b : string, lower (a +:+ " " +:+ b) = lower a +:+ " " +:+ lower b.

(** The keys [fill_permit] sets itself. *)
Definition reserved_keys : list string :=
  ["permitDate"; "applicationDate"; "currentDate"; "year"].

(** [w'] is [w] after some work: the clock has not gone back, the templates
    are the same, every saved document is still saved (perhaps overwritten)
    and the render log has only grown at its end. *)
Definition world_extends (w w' : World) : Prop :=
  (tick w <= tick w')%nat /\
  fs_templates w' = fs_templates w /\
  dom (fs_files w) ⊆ dom (fs_files w') /\
  exists more, render_log w' = (render_log w ++ more)%list.

(** [arguments] with another [workTypes]. *)
Definition with_work_types (work_types : option (list string)) (a : Arguments)
    : Arguments :=
  {| projectDescription := projectDescription a;
     workTypes := work_types;
     permitId := permitId a;
     projectData := projectData a |}.

(** The tools that take their input from [arguments], and among them the
    ones that only read. *)
Definition argument_tools : list string :=
  ["identify_required_permits"; "preview_permit"; "preview_all_permits";
   "fill_permit_form"; "fill_all_required_permits"; "validate_permit_data"].

Definition read_only_tools : list string :=
  ["identify_required_permits"; "preview_permit"; "preview_all_permits";
   "list_available_permits"; "validate_permit_data"].

(** *** The field rows of the previews *)

(** [value = project_data.get(field, '[NOT PROVIDED]')], in the field loop
    of [preview_permit] and of [preview_all_permits]. *)
Definition preview_value (project_data : gmap string value) (field : string) : value :=
  default (VStr "[NOT PROVIDED]") (project_data !! field).

(** [value == '[NOT PROVIDED]'], the test of the same loops that marks the
    row of the field as missing. *)
Definition marked_not_provided (v : value) : bool :=
  match v with
  | VStr s => bool_decide (s = "[NOT PROVIDED]")
  | _ => false
  end.

(** *** [handle_list_tools] *)

(** [types.Tool(name=.., description=.., inputSchema=..)] *)
Record Tool : Type := mkTool {
  tool_name : string;
  tool_description : string;
  inputSchema : value
}.

(** [{"type": .., "description": ..}] *)
Definition described (type description : string) : value :=
  VDict [("type", VStr type); ("description", VStr description)].

(** [{"type": "array", "items": {"type": "string"}, "description": ..}] *)
Definition string_array (description : string) : value :=
  VDict [("type", VStr "array");
         ("items", VDict [("type", VStr "string")]);
         ("description", VStr description)].

(** [{"type": "object", "properties": .., "required": ..}] *)
Definition object_schema (properties : list (string * value)) (required : list string)
    : value :=
  VDict [("type", VStr "object");
         ("properties", VDict properties);
         ("required", VList (map VStr required))].

(** The fields the schema of [fill_permit_form] declares for the project
    data, each as [{"type": "string"}]. *)
Definition project_data_fields : list string :=
  ["projectAddress"; "ownerName"; "ownerPhone"; "ownerEmail"; "contractorName";
   "contractorLicense"; "contractorPhone"; "insurancePolicy"; "projectDescription";
   "workType"; "estimatedCost"; "startDate"; "duration"; "buildingArea"; "stories";
   "electricianName"; "electricianLicense"; "electricianPhone"; "electricianCompany";
   "workDescription"; "serviceType"; "voltage"; "amperage"; "numCircuits";
   "panelUpgrade"; "newService"; "specialRequirements"; "plumberName";
   "plumberLicense"; "plumberPhone"; "plumberCompany"; "waterConnection";
   "sewerConnection"; "gasLines"; "numFixtures"; "waterHeater"; "backflowPrevention"].

Definition handle_list_tools : list Tool :=
  [ {| tool_name := "identify_required_permits";
       tool_description :=
         "Identifies which permits are needed based on project requirements";
       inputSchema :=
         object_schema
           [("projectDescription",
             described "string" "Description of the project work to be done");
            ("workTypes",
             string_array
               "Array of work types (e.g., ['construction', 'electrical work'])")]
           ["projectDescription"] |};
    {| tool_name := "preview_permit";
       tool_description :=
         "Preview what data will be filled in a permit before saving. Shows all fields and their values.";
       inputSchema :=
         object_schema
           [("permitId",
             described "string"
               "ID of the permit to preview (e.g., 'building', 'electrical')");
            ("projectData", described "object" "Project information to preview")]
           ["permitId"; "projectData"] |};
    {| tool_name := "preview_all_permits";
       tool_description :=
         "Preview all required permits for a project at once. Shows what data will be in each permit.";
       inputSchema :=
         object_schema
           [("projectDescription", described "string" "Description of the project");
            ("projectData", described "object" "Complete project information")]
           ["projectDescription"; "projectData"] |};
    {| tool_name := "fill_permit_form";
       tool_description :=
         "Fills out and saves a specific permit form with project data. Use after previewing.";
       inputSchema :=
         object_schema
           [("permitId",
             described "string"
               "ID of the permit to fill (e.g., 'building', 'electrical')");
            ("projectData",
             VDict [("type", VStr "object");
                    ("description", VStr "Project information to fill into the form");
                    ("properties",
                     VDict (map (fun field => (field, VDict [("type", VStr "string")]))
                              project_data_fields))])]
           ["permitId"; "projectData"] |};
    {| tool_name := "fill_all_required_permits";
       tool_description :=
         "Identifies and fills all required permits for a project in one go. Consider using preview_all_permits first.";
       inputSchema :=
         object_schema
           [("projectDescription", described "string" "Description of the project");
            ("workTypes", string_array "Optional array of work types");
            ("projectData", described "object" "Complete project information")]
           ["projectDescription"; "projectData"] |};
    {| tool_name := "list_available_permits";
       tool_description := "Lists all available permit types";
       inputSchema := VDict [("type", VStr "object"); ("properties", VDict [])] |};
    {| tool_name := "validate_permit_data";
       tool_description :=
         "Validates if project data contains all required fields for a specific permit";
       inputSchema :=
         object_schema
           [("permitId", described "string" "ID of the permit to validate");
            ("projectData", described "object" "Project data to validate")]
           ["permitId"; "projectData"] |} ].

(** [d[key]] on a dict value, [None] where Python raises [KeyError]. *)
Definition dict_get (key : string) (v : value) : option value :=
  match v with
  | VDict d => snd <$> List.find (fun kv => bool_decide (fst kv = key)) d
  | _ => None
  end.

(** The keys of [inputSchema["properties"]] and the strings of
    [inputSchema["required"]] (none when the schema has no such entry). *)
Definition declared_properties (tool : Tool) : list string :=
  match dict_get "properties" (inputSchema tool) with
  | Some (VDict d) => map fst d
  | _ => []
  end.

Definition required_arguments (tool : Tool) : list string :=
  match dict_get "required" (inputSchema tool) with
  | Some (VList l) =>
      omap (fun v => match v with VStr s => Some s | _ => None end) l
  | _ => []
  end.

(** *** More runs *)

Module Scenario.

(** A clock that stands still: every reading falls in the same second. *)
Definition frozen_clock (n : nat) : datetime :=
  {| year := 2024; month := 3; day := 7; hour := 14; minute := 5; second := 9 |}.

Definition frozen_runtime : Runtime :=
  {| rt_lower := Str.ascii_lower;
     rt_clock := frozen_clock;
     rt_joinpath := fun dir name => dir +:+ "/" +:+ name;
     rt_absolute := fun path => path;
     rt_open_error := fun _ _ => None;
     rt_render_error := fun _ _ _ => None;
     rt_save_error := fun _ _ _ => None;
     rt_json_dumps := Demo.dumps;
     rt_preview_layout := fun permit _ _ _ _ => "PERMIT PREVIEW: " +:+ p_name permit;
     rt_preview_all_layout := fun _ _ => "PREVIEW: ALL REQUIRED PERMITS" |}.


(** An engine that fails to render the building template and no other. *)
Definition building_fails_runtime : Runtime :=
  {| rt_lower := Str.ascii_lower;
     rt_clock := Demo.clock;
     rt_joinpath := fun dir name => dir +:+ "/" +:+ name;
     rt_absolute := fun path => path;
     rt_open_error := fun _ _ => None;
     rt_render_error := fun _ template_path _ =>
       if bool_decide (template_path = "templates/building.docx")
       then Some (EngineError "template syntax error")
       else None;
     rt_save_error := fun _ _ _ => None;
     rt_json_dumps := Demo.dumps;
     rt_preview_layout := fun permit _ _ _ _ => "PERMIT PREVIEW: " +:+ p_name permit;
     rt_preview_all_layout := fun _ _ => "PREVIEW: ALL REQUIRED PERMITS" |}.

(** A catch-all permit, a permit without triggers, and a sign permit whose
    template is not on disk. *)
Definition general : Permit :=
  {| p_id := "general";
     p_name := "General Permit";
     p_triggers := ["zoning"; ""];
     p_requiredFields := ["ownerName"];
     p_template := "general.docx" |}.

Definition dormant : Permit :=
  {| p_id := "dormant";
     p_name := "Dormant Permit";
     p_triggers := [];
     p_requiredFields := [];
     p_template := "dormant.docx" |}.

Definition sign : Permit :=
  {| p_id := "sign";
     p_name := "Sign Permit";
     p_triggers := ["sign"];
     p_requiredFields := ["ownerName"];
     p_template := "sign.docx" |}.

(** A second electrical permit under the id of the first. *)
Definition electrical_duplicate : Permit :=
  {| p_id := "electrical";
     p_name := "Electrical Permit (old form)";
     p_triggers := ["service panel"];
     p_requiredFields := ["ownerName"];
     p_template := "electrical-old.docx" |}.

End Scenario.

(** * Properties *)

(** ** Strings *)

Module StrFacts.
Import Str.

Lemma starts_with_spec (t s : string) :
  starts_with t s = true <-> exists post, s = t +:+ post.
Proof.
  revert s. induction t as [|a t IH]; intros s; simpl.
  - split; [eauto | done].
  - destruct s as [|b s].
    + split; [done | intros [post H]; discriminate H].
    + destruct (decide (a = b)) as [->|Hne].
      * rewrite IH. split.
        -- intros [post ->]. by exists post.
        -- intros [post H]. exists post. by injection H.
      * split; [done | intros [post H]; injection H; congruence].
Qed.

Lemma occurs_in_spec (t s : string) : occurs_in t s = true <-> substring t s.
Proof.
  unfold substring. induction s as [|b s IH].
  - simpl. rewrite orb_false_r, starts_with_spec. split.
    + intros [post H]. by exists "", post.
    + intros [pre [post H]]. destruct pre; [by exists post | discriminate H].
  - cbn [occurs_in]. rewrite orb_true_iff, starts_with_spec, IH. split.
    + intros [[post H] | [pre [post H]]].
      * by exists "", post.
      * exists (String b pre), post. simpl. by rewrite H.
    + intros [pre [post H]]. destruct pre as [|c pre].
      * left. by exists post.
      * right. exists pre, post. simpl in H. by injection H.
  Qed.

Lemma occurs_in_empty (s : string) : occurs_in "" s = true.
Proof. by destruct s. Qed.

(** The strings that occur in a single space. *)
Lemma occurs_in_space (t : string) :
  occurs_in t " " = true <-> t = "" \/ t = " ".
Proof.
  split.
  - destruct t as [|a [|b t]]; [by left | |].
    + simpl. case_decide; [subst; by right | done].
    + simpl. by case_decide.
  - by intros [-> | ->].
Qed.

Lemma ascii_lower_empty (s : string) : ascii_lower s = "" <-> s = "".
Proof. by destruct s. Qed.

Lemma ascii_lower_char_space (c : ascii) :
  ascii_lower_char c = " "%char <-> c = " "%char.
Proof.
  split; [|by intros ->].
  destruct c as [[] [] [] [] [] [] [] []]; by vm_compute.
Qed.

Lemma ascii_lower_space (s : string) : ascii_lower s = " " <-> s = " ".
Proof.
  split; [|by intros ->].
  destruct s as [|c [|d s]]; simpl; try done.
  intros H. injection H as H. apply (proj1 (ascii_lower_char_space c)) in H. by subst.
Qed.

End StrFacts.

(** ** PermitMatcher *)

Section MatcherFacts.

Variable lower : string -> string.

Lemma matches_spec (text : string) (P : Permit) :
  matches lower text P = true <->
  exists t, In t (p_triggers P) /\ Str.substring (lower t) text.
Proof.
  unfold matches. rewrite existsb_exists.
  split; intros [t [Hin Ht]]; exists t; split; try done;
    by apply StrFacts.occurs_in_spec.
Qed.

(** The loop appends to what it was given the matching permits of the
    rest of the catalog, each once and in order. *)
Lemma identify_loop_filter (text : string) (rest : list Permit) (acc : list PermitInfo) :
  identify_loop lower text rest acc =
  (acc ++ map permit_info (List.filter (matches lower text) rest))%list.
Proof.
  revert acc. induction rest as [|P rest IH]; intros acc; simpl.
  - by rewrite app_nil_r.
  - destruct (matches lower text P); rewrite IH; [|done].
    by rewrite <- app_assoc.
Qed.

Lemma identify_permits_filter (permits : list Permit) (description : string)
    (work_types : option (list string)) :
  identify_permits lower permits description work_types =
  map permit_info
    (List.filter (matches lower (search_text lower description (default [] work_types)))
       permits).
Proof.
  unfold identify_permits. rewrite identify_loop_filter. by destruct work_types.
Qed.

(** A permit the matcher returned is in the catalog under its own id. *)
Lemma identify_permits_found (permits : list Permit) (description : string)
    (work_types : option (list string)) (info : PermitInfo) :
  In info (identify_permits lower permits description work_types) ->
  exists P, In P permits /\ p_id P = i_id info.
Proof.
  rewrite identify_permits_filter, in_map_iff.
  intros [P [<- HP]]. apply filter_In in HP as [HP _]. by exists P.
Qed.

End MatcherFacts.

Lemma get_permit_by_id_some (permits : list Permit) (P : Permit) :
  In P permits ->
  exists Q, get_permit_by_id permits (Some (p_id P)) = Some Q /\ In Q permits /\ p_id Q = p_id P.
Proof.
  unfold get_permit_by_id. induction permits as [|Q permits IH]; [done|].
  intros HP. simpl. case_bool_decide as Hid.
  - exists Q. split; [done|]. split; [by left | done].
  - destruct HP as [-> | HP]; [done|].
    destruct (IH HP) as [Q' [H1 [H2 H3]]]. exists Q'. split; [done|]. split; [by right | done].
Qed.

Lemma get_permit_by_id_none (permits : list Permit) (permit_id : option string) :
  get_permit_by_id permits permit_id = None <->
  forall P, In P permits -> Some (p_id P) <> permit_id.
Proof.
  unfold get_permit_by_id. induction permits as [|Q permits IH]; simpl.
  - split; [by intros _ P [] | done].
  - destruct permit_id as [s|]; simpl.
    + case_bool_decide as Hid.
      * split; [done|]. intros H. exfalso. apply (H Q); [by left | by subst].
      * rewrite IH. split.
        -- intros H P [<- | HP]; [congruence | by apply H].
        -- intros H P HP. apply H. by right.
    + rewrite IH. split; [done|]. intros _ P _. done.
Qed.

Lemma get_permit_by_id_no_id (permits : list Permit) :
  get_permit_by_id permits None = None.
Proof. by apply get_permit_by_id_none. Qed.

(** C1, as amended.  The text searched is the description, one space and
    the space-joined work types, lower-cased (with no work types the space
    is still there).  [identify_permits] returns, for exactly the permits of
    the catalog one of whose triggers, lower-cased, is a substring of that
    text, the dict of their id, name, template and required fields: one
    entry for each such catalog entry, in catalog order. *)
Theorem identify_permits_spec (lower : string -> string) (permits : list Permit)
    (description : string) (work_types : option (list string)) :
  let text := lower (description +:+ " " +:+ Str.join " " (default [] work_types)) in
  let triggered := fun P : Permit =>
    exists t, In t (p_triggers P) /\ Str.substring (lower t) text in
  let result := identify_permits lower permits description work_types in
  result = map permit_info (List.filter (matches lower text) permits) /\
  (forall P, matches lower text P = true <-> triggered P) /\
  (forall info, In info result <->
     exists P, In P permits /\ triggered P /\ info = permit_info P).
Proof.
  intros text triggered result. split; [|split].
  - apply identify_permits_filter.
  - intros P. apply matches_spec.
  - intros info. unfold result. rewrite identify_permits_filter, in_map_iff.
    split.
    + intros [P [<- HP]]. apply filter_In in HP as [HP Hm].
      exists P. split; [done|]. split; [by apply matches_spec | done].
    + intros [P [HP [Ht ->]]]. exists P. split; [done|].
      apply filter_In. split; [done | by apply matches_spec].
Qed.

(** With the ids of the catalog distinct, as the rules file has them, the
    ids of the result are distinct. *)
Lemma identify_permits_no_duplicates (lower : string -> string) (permits : list Permit)
    (description : string) (work_types : option (list string)) :
  NoDup (map p_id permits) ->
  NoDup (map i_id (identify_permits lower permits description work_types)).
Proof.
  rewrite identify_permits_filter, map_map.
  generalize (matches lower (search_text lower description (default [] work_types))).
  intros keep. induction permits as [|P permits IH]; intros Hids; [constructor|].
  simpl in Hids. apply NoDup_cons in Hids as [Hfresh Hids]. simpl.
  destruct (keep P); [|by apply IH].
  simpl. apply NoDup_cons. split; [|by apply IH].
  intros Hin. apply Hfresh.
  apply list_elem_of_In, in_map_iff in Hin as [Q [HQ Hin]].
  apply filter_In in Hin as [Hin _].
  apply list_elem_of_In, in_map_iff. exists Q. by split.
Qed.

(** C1 as stated fails.  Were the text searched the description followed
    directly by the space-joined work types, the trigger [deck] would occur
    in it for the description [de] and the work type [ck], and the trigger
    [fence installation] would not for the description [fence] and the work
    type [installation]; the code returns nothing in the first case and the
    permit in the second. *)
Lemma identify_permits_separator_counterexample :
  let deck := mkPermit "deck" "Deck Permit" ["deck"] ["ownerName"] "deck.docx" in
  let fence :=
    mkPermit "fence" "Fence Permit" ["fence installation"] ["ownerName"] "fence.docx" in
  ~ (In (permit_info deck) (identify_permits Str.ascii_lower [deck] "de" (Some ["ck"])) <->
     exists t, In t (p_triggers deck) /\
       Str.substring (Str.ascii_lower t) (Str.ascii_lower ("de" +:+ Str.join " " ["ck"]))) /\
  ~ (In (permit_info fence)
       (identify_permits Str.ascii_lower [fence] "fence" (Some ["installation"])) <->
     exists t, In t (p_triggers fence) /\
       Str.substring (Str.ascii_lower t)
         (Str.ascii_lower ("fence" +:+ Str.join " " ["installation"]))).
Proof.
  cbv zeta. split.
  - intros [_ Hback].
    assert (In (mkPermitInfo "deck" "Deck Permit" "deck.docx" ["ownerName"]) []) as [].
    apply Hback. exists "deck". split; [by left|].
    by apply StrFacts.occurs_in_spec.
  - intros [Hforth _].
    destruct Hforth as [t [[<- | []] Ht]]; [by left|].
    by apply StrFacts.occurs_in_spec in Ht.
Qed.

(** C3, as amended.  With an empty description and no work types the text
    searched is the single separating space; if no trigger of the catalog
    is the empty string or the single space, no permit is returned. *)
Theorem identify_permits_empty_request (lower : string -> string) (permits : list Permit) :
  lower_keeps_blank lower ->
  (forall P t, In P permits -> In t (p_triggers P) -> t <> "" /\ t <> " ") ->
  identify_permits lower permits "" (Some []) = [] /\
  identify_permits lower permits "" None = [].
Proof.
  intros Hlower Htriggers.
  assert (List.filter (matches lower (lower " ")) permits = []) as Hnone.
  { induction permits as [|P permits IH]; [done|]. simpl.
    destruct (matches lower (lower " ") P) eqn:Hm.
    - apply matches_spec in Hm as [t [Hin Ht]].
      apply StrFacts.occurs_in_spec in Ht.
      rewrite (proj2 (proj2 (Hlower " ")) eq_refl) in Ht.
      apply StrFacts.occurs_in_space in Ht.
      destruct (Htriggers P t) as [Ht1 Ht2]; [by left | done |].
      destruct Ht as [Ht | Ht].
      + by apply (Hlower t) in Ht.
      + by apply (Hlower t) in Ht.
    - apply IH. intros Q t HQ. apply Htriggers. by right. }
  rewrite !identify_permits_filter. unfold search_text.
  change ("" +:+ " " +:+ Str.join " " (default [] (Some []))) with " ".
  change ("" +:+ " " +:+ Str.join " " (default [] None)) with " ".
  by rewrite Hnone.
Qed.

Lemma ascii_lower_keeps_blank : lower_keeps_blank Str.ascii_lower.
Proof.
  intros s. split; [apply StrFacts.ascii_lower_empty | apply StrFacts.ascii_lower_space].
Qed.

Lemma identify_permits_empty_request_witness :
  identify_permits Str.ascii_lower Demo.catalog "" (Some []) = [] /\
  identify_permits Str.ascii_lower Demo.catalog "" None = [].
Proof.
  apply (identify_permits_empty_request Str.ascii_lower Demo.catalog).
  - exact ascii_lower_keeps_blank.
  - intros P t HP Ht. simpl in HP.
    destruct HP as [<- | [<- | []]]; simpl in Ht; intuition (subst; done).
Defined.

(** C3 as stated fails: a trigger that is a single space is not the empty
    string, and it occurs in the separating space of the text searched. *)
Lemma identify_permits_blank_trigger_counterexample :
  let general := mkPermit "general" "General Permit" [" "] ["ownerName"] "general.docx" in
  (forall P t, In P [general] -> In t (p_triggers P) -> t <> "") /\
  identify_permits Str.ascii_lower [general] "" (Some []) = [permit_info general] /\
  identify_permits Str.ascii_lower [general] "" None = [permit_info general] /\
  identify_permits Str.ascii_lower [general] "" (Some []) <> [].
Proof.
  cbv zeta. split; [|split; [reflexivity | split; [reflexivity | done]]].
  intros P t [<- | []] [<- | []]. done.
Qed.

(** ** FormFiller.validate_required_fields *)

Lemma missing_of_filter (D : gmap string value) (R : list string) :
  missing_of D R = List.filter (field_missing D) R.
Proof.
  induction R as [|f R IH]; [done|]. simpl. by rewrite IH.
Qed.

Lemma field_missing_spec (D : gmap string value) (f : string) :
  field_missing D f = true <->
  D !! f = None \/ exists v, D !! f = Some v /\ truthy v = false.
Proof.
  unfold field_missing. destruct (D !! f) as [v|].
  - rewrite negb_true_iff. split.
    + intros H. right. by exists v.
    + intros [H | [v' [H1 H2]]]; [done | congruence].
  - split; [by left | done].
Qed.

(** The values Python takes for false. *)
Lemma truthy_false (v : value) :
  truthy v = false <->
  v = VNone \/ v = VBool false \/ v = VInt 0 \/ (exists s, v = VFloat (S754_zero s)) \/
  v = VStr "" \/ v = VList [] \/ v = VDict [].
Proof.
  split.
  - destruct v as [|b|z|f|s|l|d]; simpl.
    + by left.
    + intros ->. right. by left.
    + rewrite negb_false_iff, Z.eqb_eq. intros ->. right. right. by left.
    + destruct f as [s| | |]; try done. intros _. do 3 right. left. by exists s.
    + rewrite negb_false_iff. intros H%bool_decide_eq_true. subst. do 4 right. by left.
    + destruct l; [|done]. intros _. do 5 right. by left.
    + destruct d; [|done]. intros _. do 6 right. done.
  - intros [-> | [-> | [-> | [[s ->] | [-> | [-> | ->]]]]]]; done.
Qed.

(** C2.  [missingFields] is the required fields that the data lacks or
    maps to a false value ([None], [False], zero, the empty string, list
    or dict), in the order of the required fields, and [valid] says that
    [missingFields] is empty. *)
Theorem validate_required_fields_spec (D : gmap string value) (R : list string) :
  missingFields (validate_required_fields D R) = List.filter (field_missing D) R /\
  (forall f, field_missing D f = true <->
     D !! f = None \/ exists v, D !! f = Some v /\ truthy v = false) /\
  (forall v, truthy v = false <->
     v = VNone \/ v = VBool false \/ v = VInt 0 \/ (exists s, v = VFloat (S754_zero s)) \/
     v = VStr "" \/ v = VList [] \/ v = VDict []) /\
  (forall f, In f (missingFields (validate_required_fields D R)) <->
     In f R /\ (D !! f = None \/ exists v, D !! f = Some v /\ truthy v = false)) /\
  (valid (validate_required_fields D R) = true <->
     missingFields (validate_required_fields D R) = []).
Proof.
  split; [|split; [|split; [|split]]].
  - apply missing_of_filter.
  - apply field_missing_spec.
  - apply truthy_false.
  - intros f. simpl. by rewrite missing_of_filter, filter_In, field_missing_spec.
  - simpl. rewrite Nat.eqb_eq. by destruct (missing_of D R).
Qed.

Lemma valid_true_iff (D : gmap string value) (R : list string) :
  valid (validate_required_fields D R) = true <->
  missingFields (validate_required_fields D R) = [].
Proof. simpl. rewrite Nat.eqb_eq. by destruct (missing_of D R). Qed.

Lemma invalid_iff_some_missing (D : gmap string value) (R : list string) :
  valid (validate_required_fields D R) = false <->
  exists f, In f R /\ field_missing D f = true.
Proof.
  simpl. rewrite missing_of_filter. split.
  - destruct (List.filter (field_missing D) R) as [|f l] eqn:Hf; [done|].
    intros _. exists f. apply filter_In. rewrite Hf. by left.
  - intros [f Hf]. apply filter_In in Hf.
    by destruct (List.filter (field_missing D) R).
Qed.

(** ** [strftime] *)

Module StrftimeFacts.
Import Strftime.

Lemma digit_value_digit (n : Z) : digit_value (digit n) = n mod 10.
Proof.
  unfold digit_value, digit.
  assert (0 <= n mod 10 < 10) as H by (apply Z.mod_pos_bound; lia).
  rewrite nat_ascii_embedding by lia. lia.
Qed.

Lemma digit_is_digit (n : Z) :
  Nat.leb 48 (nat_of_ascii (digit n)) && Nat.leb (nat_of_ascii (digit n)) 57 = true.
Proof.
  unfold digit.
  assert (0 <= n mod 10 < 10) as H by (apply Z.mod_pos_bound; lia).
  rewrite nat_ascii_embedding by lia.
  apply andb_true_iff. split; apply Nat.leb_le; lia.
Qed.

Lemma two_numeral (n : Z) : 0 <= n <= 99 -> numeral 2 n (two n).
Proof.
  intros Hn. unfold numeral, two, number. cbn [String.length all_digits number_from].
  rewrite !digit_is_digit, !digit_value_digit.
  split; [reflexivity|]. split; [reflexivity|].
  pose proof (Z.div_mod n 10 ltac:(lia)) as H1.
  pose proof (Z.mod_pos_bound n 10 ltac:(lia)) as H2.
  rewrite (Z.mod_small (n / 10) 10) by lia. lia.
Qed.

Lemma four_numeral (n : Z) : 0 <= n <= 9999 -> numeral 4 n (four n).
Proof.
  intros Hn. unfold numeral, four, two, number.
  cbn [String.length all_digits number_from].
  rewrite !digit_is_digit, !digit_value_digit.
  split; [reflexivity|]. split; [reflexivity|].
  replace (n / 100) with (n / 10 / 10) by (rewrite Z.div_div by lia; reflexivity).
  replace (n / 1000) with (n / 10 / 10 / 10) by (rewrite !Z.div_div by lia; reflexivity).
  pose proof (Z.div_mod n 10 ltac:(lia)) as H1.
  pose proof (Z.mod_pos_bound n 10 ltac:(lia)) as H2.
  pose proof (Z.div_mod (n / 10) 10 ltac:(lia)) as H3.
  pose proof (Z.mod_pos_bound (n / 10) 10 ltac:(lia)) as H4.
  pose proof (Z.div_mod (n / 10 / 10) 10 ltac:(lia)) as H5.
  pose proof (Z.mod_pos_bound (n / 10 / 10) 10 ltac:(lia)) as H6.
  rewrite (Z.mod_small (n / 10 / 10 / 10) 10) by lia. lia.
Qed.

(** [%m/%d/%Y] prints two digits, a slash, two digits, a slash and four
    digits, which read as the month, the day and the year. *)
Lemma mdY_shape (d : datetime) : valid_datetime d -> month_day_year d (mdY d).
Proof.
  intros (Hy & Hm & Hd & _). exists (two (month d)), (two (day d)), (four (year d)).
  split; [reflexivity|]. split; [|split].
  - apply two_numeral. lia.
  - apply two_numeral. lia.
  - apply four_numeral. lia.
Qed.

(** [%Y%m%d-%H%M%S] prints eight digits, a dash and six digits. *)
Lemma YmdHMS_shape (d : datetime) : valid_datetime d -> stamp d (YmdHMS d).
Proof.
  intros (Hy & Hm & Hd & HH & HM & HS).
  exists (four (year d)), (two (month d)), (two (day d)),
         (two (hour d)), (two (minute d)), (two (second d)).
  split; [reflexivity|].
  split; [apply four_numeral; lia|].
  repeat (split; [apply two_numeral; lia|]). apply two_numeral; lia.
Qed.

Lemma compare_cons (a b : ascii) (s s' : string) :
  String.compare (String a s) (String b s') = lex (Ascii.compare a b) (String.compare s s').
Proof. cbn [String.compare]. by destruct (Ascii.compare a b). Qed.

Lemma compare_digit (n m : Z) :
  Ascii.compare (digit n) (digit m) = Z.compare (n mod 10) (m mod 10).
Proof.
  unfold Ascii.compare, digit, ascii_of_nat.
  assert (0 <= n mod 10 < 10) as Hn by (apply Z.mod_pos_bound; lia).
  assert (0 <= m mod 10 < 10) as Hm by (apply Z.mod_pos_bound; lia).
  rewrite !N_ascii_embedding by lia.
  rewrite <- N2Z.inj_compare, !nat_N_Z, !Nat2Z.inj_add, !Z2Nat.id by lia.
  apply Z.add_compare_mono_l.
Qed.

(** The decimal digits of a number below ten thousand. *)
Lemma digits_of (n : Z) :
  0 <= n <= 9999 ->
  exists a b c d,
    (n / 1000) mod 10 = a /\ (n / 100) mod 10 = b /\ (n / 10) mod 10 = c /\ n mod 10 = d /\
    n = 1000 * a + 100 * b + 10 * c + d /\
    0 <= a <= 9 /\ 0 <= b <= 9 /\ 0 <= c <= 9 /\ 0 <= d <= 9.
Proof.
  intros Hn.
  replace (n / 100) with (n / 10 / 10) by (rewrite Z.div_div by lia; reflexivity).
  replace (n / 1000) with (n / 10 / 10 / 10) by (rewrite !Z.div_div by lia; reflexivity).
  pose proof (Z.div_mod n 10 ltac:(lia)) as H1.
  pose proof (Z.mod_pos_bound n 10 ltac:(lia)) as H2.
  pose proof (Z.div_mod (n / 10) 10 ltac:(lia)) as H3.
  pose proof (Z.mod_pos_bound (n / 10) 10 ltac:(lia)) as H4.
  pose proof (Z.div_mod (n / 10 / 10) 10 ltac:(lia)) as H5.
  pose proof (Z.mod_pos_bound (n / 10 / 10) 10 ltac:(lia)) as H6.
  rewrite (Z.mod_small (n / 10 / 10 / 10) 10) by lia.
  exists (n / 10 / 10 / 10), ((n / 10 / 10) mod 10), ((n / 10) mod 10), (n mod 10).
  repeat (split; [reflexivity|]). lia.
Qed.

Lemma compare_four (n m : Z) :
  0 <= n <= 9999 -> 0 <= m <= 9999 -> String.compare (four n) (four m) = Z.compare n m.
Proof.
  intros Hn Hm. unfold four, two. rewrite !compare_cons, !compare_digit.
  destruct (digits_of n Hn) as (a & b & c & d & -> & -> & -> & -> & Hn' & Ha & Hb & Hc & Hd).
  destruct (digits_of m Hm) as (a' & b' & c' & d' & -> & -> & -> & -> & Hm' & Ha' & Hb' & Hc' & Hd').
  cbn [String.compare]. unfold lex.
  destruct (Z.compare_spec a a'), (Z.compare_spec b b'), (Z.compare_spec c c'),
    (Z.compare_spec d d'), (Z.compare_spec n m); try reflexivity; lia.
Qed.

Lemma compare_two (n m : Z) :
  0 <= n <= 99 -> 0 <= m <= 99 -> String.compare (two n) (two m) = Z.compare n m.
Proof.
  intros Hn Hm. unfold two. rewrite !compare_cons, !compare_digit.
  destruct (digits_of n ltac:(lia)) as (a & b & c & d & _ & _ & -> & -> & Hn' & Ha & Hb & Hc & Hd).
  destruct (digits_of m ltac:(lia)) as (a' & b' & c' & d' & _ & _ & -> & -> & Hm' & Ha' & Hb' & Hc' & Hd').
  cbn [String.compare]. unfold lex.
  destruct (Z.compare_spec c c'), (Z.compare_spec d d'), (Z.compare_spec n m);
    try reflexivity; lia.
Qed.

(** Comparing two strings that begin with texts of the same length. *)
Lemma compare_append (a a' s s' : string) :
  String.length a = String.length a' ->
  String.compare (a +:+ s) (a' +:+ s') = lex (String.compare a a') (String.compare s s').
Proof.
  revert a'. induction a as [|c a IH]; intros [|c' a'] Hlen; try discriminate Hlen.
  - reflexivity.
  - injection Hlen as Hlen.
    change (String c a +:+ s) with (String c (a +:+ s)).
    change (String c' a' +:+ s') with (String c' (a' +:+ s')).
    rewrite !compare_cons, (IH a' Hlen).
    by destruct (Ascii.compare c c').
Qed.

(** The timestamps sort as the readings do. *)
Lemma YmdHMS_sortable (d d' : datetime) :
  valid_datetime d -> valid_datetime d' ->
  String.compare (YmdHMS d) (YmdHMS d') = chronological d d'.
Proof.
  intros (Hy & Hm & Hd & HH & HM & HS) (Hy' & Hm' & Hd' & HH' & HM' & HS').
  unfold YmdHMS, chronological.
  repeat (rewrite compare_append by reflexivity).
  rewrite compare_four by lia. rewrite !compare_two by lia.
  change (String.compare "-" "-") with Eq. reflexivity.
Qed.

End StrftimeFacts.

(** ** FormFiller.fill_permit *)

Lemma append_length (a b : string) :
  String.length (a +:+ b) = (String.length a + String.length b)%nat.
Proof. induction a as [|c a IH]; [done|]. simpl. by rewrite IH. Qed.

(** Two strings that differ still differ when the same text is appended. *)
Lemma append_inv_tail (a b s : string) : a +:+ s = b +:+ s -> a = b.
Proof.
  revert b. induction a as [|c a IH]; intros [|c' b] H.
  - done.
  - apply (f_equal String.length) in H. rewrite !append_length in H. simpl in H. lia.
  - apply (f_equal String.length) in H. rewrite !append_length in H. simpl in H. lia.
  - injection H as -> H. by rewrite (IH b H).
Qed.

Lemma output_filename_inj (id1 id2 timestamp : string) :
  id1 <> id2 -> output_filename id1 timestamp <> output_filename id2 timestamp.
Proof.
  unfold output_filename. intros Hne H. apply Hne. by apply append_inv_tail in H.
Qed.

Lemma fill_data_lookup (project_data : gmap string value) (d1 d2 d3 d4 : datetime) :
  fill_data project_data d1 d2 d3 d4 !! "permitDate" = Some (VStr (Strftime.mdY d1)) /\
  fill_data project_data d1 d2 d3 d4 !! "applicationDate" = Some (VStr (Strftime.mdY d2)) /\
  fill_data project_data d1 d2 d3 d4 !! "currentDate" = Some (VStr (Strftime.mdY d3)) /\
  fill_data project_data d1 d2 d3 d4 !! "year" = Some (VInt (year d4)) /\
  forall key, key <> "permitDate" -> key <> "applicationDate" ->
    key <> "currentDate" -> key <> "year" ->
    fill_data project_data d1 d2 d3 d4 !! key = project_data !! key.
Proof.
  unfold fill_data. split; [|split; [|split; [|split]]].
  - do 3 (rewrite lookup_insert_ne by done). apply lookup_insert_eq.
  - do 2 (rewrite lookup_insert_ne by done). apply lookup_insert_eq.
  - rewrite lookup_insert_ne by done. apply lookup_insert_eq.
  - apply lookup_insert_eq.
  - intros key H1 H2 H3 H4. by rewrite !lookup_insert_ne.
Qed.

Section FillPermitFacts.

Variable R : Runtime.
Variable self : FormFiller.

(** One run of [fill_permit], step by step. *)
Lemma fill_permit_run (template_name permit_id permit_name : string)
    (project_data : gmap string value) (w : World) :
  fill_permit R self template_name permit_id permit_name project_data w =
  let tp := rt_joinpath R (templates_dir self) template_name in
  if bool_decide (tp ∈ fs_templates w) then
    match rt_open_error R w tp with
    | Some e => (Raised e, w)
    | None =>
        let w4 := clock_read (clock_read (clock_read (clock_read w))) in
        let payload :=
          fill_data project_data (rt_clock R (tick w)) (rt_clock R (S (tick w)))
            (rt_clock R (S (S (tick w)))) (rt_clock R (S (S (S (tick w))))) in
        match rt_render_error R w4 tp payload with
        | Some e => (Raised e, render_logged tp payload w4)
        | None =>
            let doc := {| doc_template := tp; doc_payload := Some payload |} in
            let w5 := clock_read (render_logged tp payload w4) in
            let file :=
              output_filename permit_id
                (Strftime.YmdHMS (rt_clock R (S (S (S (S (tick w))))))) in
            let path := rt_joinpath R (output_dir self) file in
            match rt_save_error R w5 doc path with
            | Some e => (Raised e, w5)
            | None =>
                (Returned (fill_result permit_name file (rt_absolute R path)),
                 file_saved path doc w5)
            end
        end
    end
  else (Raised (FileNotFoundError ("Template not found: " +:+ tp)), w).
Proof.
  unfold fill_permit, mbind, M_bind, path_exists, DocxTemplate, docx_render,
    docx_save, now, raise, mret, M_ret.
  cbv zeta. case_bool_decide; simpl; [|done].
  destruct (rt_open_error R w _); [done|]. simpl.
  destruct (rt_render_error R _ _ _); [done|]. simpl.
  destruct (rt_save_error R _ _ _); done.
Qed.

(** What a run that returns has returned and written. *)
Lemma fill_permit_returned (template_name permit_id permit_name : string)
    (project_data : gmap string value) (w w' : World) (v : value) :
  fill_permit R self template_name permit_id permit_name project_data w = (Returned v, w') ->
  let file :=
    output_filename permit_id (Strftime.YmdHMS (rt_clock R (4 + tick w)%nat)) in
  let path := rt_joinpath R (output_dir self) file in
  v = fill_result permit_name file (rt_absolute R path) /\
  exists doc, fs_files w' = <[path := doc]> (fs_files w).
Proof.
  rewrite fill_permit_run. cbv zeta. case_bool_decide; [|done].
  destruct (rt_open_error R w _); [done|].
  destruct (rt_render_error R _ _ _); [done|].
  destruct (rt_save_error R _ _ _); [done|].
  intros [= <- <-]. split; [done|]. eexists. reflexivity.
Qed.

End FillPermitFacts.

(** C4.  When the template is there and opens, [fill_permit] calls the
    engine's render once, with the project data in which [permitDate],
    [applicationDate] and [currentDate] are the month/day/year dates, two
    digits, two digits and four digits, of the clock readings taken for them
    and [year] is the number of the year of the fourth reading, whatever the
    caller supplied under these keys; every other key has the caller's
    value, or none if the caller gave none. *)
Theorem fill_permit_render_payload (R : Runtime) (self : FormFiller)
    (template_name permit_id permit_name : string)
    (project_data : gmap string value) (w : World) :
  let tp := rt_joinpath R (templates_dir self) template_name in
  let d1 := rt_clock R (tick w) in
  let d2 := rt_clock R (1 + tick w)%nat in
  let d3 := rt_clock R (2 + tick w)%nat in
  let d4 := rt_clock R (3 + tick w)%nat in
  tp ∈ fs_templates w ->
  rt_open_error R w tp = None ->
  (forall n, valid_datetime (rt_clock R n)) ->
  exists payload,
    render_log (fill_permit R self template_name permit_id permit_name project_data w).2 =
      (render_log w ++ [(tp, payload)])%list /\
    payload !! "permitDate" = Some (VStr (Strftime.mdY d1)) /\
    payload !! "applicationDate" = Some (VStr (Strftime.mdY d2)) /\
    payload !! "currentDate" = Some (VStr (Strftime.mdY d3)) /\
    Strftime.month_day_year d1 (Strftime.mdY d1) /\
    Strftime.month_day_year d2 (Strftime.mdY d2) /\
    Strftime.month_day_year d3 (Strftime.mdY d3) /\
    payload !! "year" = Some (VInt (year d4)) /\ 1000 <= year d4 <= 9999 /\
    forall key, key <> "permitDate" -> key <> "applicationDate" ->
      key <> "currentDate" -> key <> "year" ->
      payload !! key = project_data !! key.
Proof.
  intros tp d1 d2 d3 d4 Hthere Hopen Hclock.
  exists (fill_data project_data d1 d2 d3 d4).
  destruct (fill_data_lookup project_data d1 d2 d3 d4) as (H1 & H2 & H3 & H4 & H5).
  split.
  { rewrite fill_permit_run. cbv zeta. fold tp.
    rewrite bool_decide_eq_true_2 by done. rewrite Hopen.
    destruct (rt_render_error R _ _ _); [done|].
    by destruct (rt_save_error R _ _ _). }
  split; [exact H1|]. split; [exact H2|]. split; [exact H3|].
  do 3 (split; [apply StrftimeFacts.mdY_shape, Hclock|]).
  split; [exact H4|]. split; [apply (Hclock (3 + tick w)%nat) | exact H5].
Qed.

Lemma demo_clock_valid (n : nat) : valid_datetime (Demo.clock n).
Proof.
  unfold valid_datetime, Demo.clock. simpl.
  pose proof (Z.mod_pos_bound (Z.of_nat n) 60). lia.
Qed.

Lemma fill_permit_render_payload_witness :
  exists payload,
    render_log
      (fill_permit Demo.runtime Demo.filler "electrical.docx" "electrical"
         "Electrical Permit" (<["year" := VStr "1999"]> Demo.jane_full) Demo.world).2 =
      [("templates/electrical.docx", payload)] /\
    payload !! "permitDate" = Some (VStr "03/07/2024") /\
    payload !! "applicationDate" = Some (VStr "03/07/2024") /\
    payload !! "currentDate" = Some (VStr "03/07/2024") /\
    Strftime.month_day_year (Demo.clock 0) "03/07/2024" /\
    Strftime.month_day_year (Demo.clock 1) "03/07/2024" /\
    Strftime.month_day_year (Demo.clock 2) "03/07/2024" /\
    payload !! "year" = Some (VInt 2024) /\ 1000 <= 2024 <= 9999 /\
    forall key, key <> "permitDate" -> key <> "applicationDate" ->
      key <> "currentDate" -> key <> "year" ->
      payload !! key = (<["year" := VStr "1999"]> Demo.jane_full) !! key.
Proof.
  apply (fill_permit_render_payload Demo.runtime Demo.filler "electrical.docx"
           "electrical" "Electrical Permit" (<["year" := VStr "1999"]> Demo.jane_full)
           Demo.world).
  - vm_compute. set_solver.
  - reflexivity.
  - exact demo_clock_valid.
Defined.

(** C9.  A submission that succeeds reports, and saves under the output
    directory, the file named by the permit id, [-permit-], the clock
    reading taken for the name as YYYYMMDD-HHMMSS, and [.docx]; these
    timestamps compare as strings the way the readings compare in time; two
    submissions for different permit ids whose readings print the same
    have different file names. *)
Theorem fill_permit_output_filename (R : Runtime) (self : FormFiller)
    (template1 id1 name1 : string) (data1 : gmap string value) (w1 w1' : World) (v1 : value)
    (template2 id2 name2 : string) (data2 : gmap string value) (w2 w2' : World) (v2 : value) :
  let t1 := rt_clock R (4 + tick w1)%nat in
  let t2 := rt_clock R (4 + tick w2)%nat in
  let file1 := id1 +:+ "-permit-" +:+ Strftime.YmdHMS t1 +:+ ".docx" in
  let file2 := id2 +:+ "-permit-" +:+ Strftime.YmdHMS t2 +:+ ".docx" in
  let path1 := rt_joinpath R (output_dir self) file1 in
  let path2 := rt_joinpath R (output_dir self) file2 in
  fill_permit R self template1 id1 name1 data1 w1 = (Returned v1, w1') ->
  fill_permit R self template2 id2 name2 data2 w2 = (Returned v2, w2') ->
  (forall n, valid_datetime (rt_clock R n)) ->
  v1 = fill_result name1 file1 (rt_absolute R path1) /\
  v2 = fill_result name2 file2 (rt_absolute R path2) /\
  (exists doc, fs_files w1' = <[path1 := doc]> (fs_files w1)) /\
  (exists doc, fs_files w2' = <[path2 := doc]> (fs_files w2)) /\
  Strftime.stamp t1 (Strftime.YmdHMS t1) /\
  Strftime.stamp t2 (Strftime.YmdHMS t2) /\
  String.compare (Strftime.YmdHMS t1) (Strftime.YmdHMS t2) = Strftime.chronological t1 t2 /\
  (id1 <> id2 -> Strftime.YmdHMS t1 = Strftime.YmdHMS t2 -> file1 <> file2).
Proof.
  intros t1 t2 file1 file2 path1 path2 Hrun1 Hrun2 Hclock.
  apply fill_permit_returned in Hrun1 as [Hv1 Hw1].
  apply fill_permit_returned in Hrun2 as [Hv2 Hw2].
  split; [exact Hv1|]. split; [exact Hv2|]. split; [exact Hw1|]. split; [exact Hw2|].
  split; [apply StrftimeFacts.YmdHMS_shape, Hclock|].
  split; [apply StrftimeFacts.YmdHMS_shape, Hclock|].
  split; [apply StrftimeFacts.YmdHMS_sortable; apply Hclock|].
  intros Hne Hsame. unfold file1, file2. rewrite Hsame.
  by apply (output_filename_inj id1 id2 (Strftime.YmdHMS t2)).
Qed.

Lemma fill_permit_output_filename_witness :
  let file1 := "building-permit-20240307-140504.docx" in
  let file2 := "electrical-permit-20240307-140504.docx" in
  let w1' :=
    (fill_permit Demo.runtime Demo.filler "building.docx" "building" "Building Permit"
       Demo.jane_full Demo.world).2 in
  let w2' :=
    (fill_permit Demo.runtime Demo.filler "electrical.docx" "electrical" "Electrical Permit"
       Demo.jane_full Demo.world).2 in
  fill_result "Building Permit" file1 ("output/" +:+ file1) =
    fill_result "Building Permit" file1 ("output/" +:+ file1) /\
  fill_result "Electrical Permit" file2 ("output/" +:+ file2) =
    fill_result "Electrical Permit" file2 ("output/" +:+ file2) /\
  (exists doc, fs_files w1' = <["output/" +:+ file1 := doc]> ∅) /\
  (exists doc, fs_files w2' = <["output/" +:+ file2 := doc]> ∅) /\
  Strftime.stamp (Demo.clock 4) "20240307-140504" /\
  Strftime.stamp (Demo.clock 4) "20240307-140504" /\
  String.compare "20240307-140504" "20240307-140504" = Eq /\
  ("building" <> "electrical" -> "20240307-140504" = "20240307-140504" -> file1 <> file2).
Proof.
  exact (fill_permit_output_filename Demo.runtime Demo.filler
           "building.docx" "building" "Building Permit" Demo.jane_full Demo.world _ _
           "electrical.docx" "electrical" "Electrical Permit" Demo.jane_full Demo.world _ _
           eq_refl eq_refl demo_clock_valid).
Defined.

(** ** The tool handler *)

Section ServerFacts.

Variable R : Runtime.
Variable permits : list Permit.
Variable form_filler : FormFiller.

(** A call that raises inside the [try] is answered with the text of the
    exception; a call that returns is answered with what it returned. *)
Lemma handle_call_tool_raised (name : string) (arguments : option Arguments)
    (w w' : World) (e : exn) :
  dispatch R permits form_filler name arguments w = (Raised e, w') ->
  handle_call_tool R permits form_filler name arguments w = (Returned (respond_text ("Error: " +:+ str_exn e)), w').
Proof. unfold handle_call_tool, try_except. by intros ->. Qed.

Lemma handle_call_tool_returned (name : string) (arguments : option Arguments)
    (w w' : World) (r : list TextContent) :
  dispatch R permits form_filler name arguments w = (Returned r, w') ->
  handle_call_tool R permits form_filler name arguments w = (Returned r, w').
Proof. unfold handle_call_tool, try_except. by intros ->. Qed.

Lemma dispatch_unknown (name : string) (arguments : option Arguments) (w : World) :
  ~ In name tool_names ->
  dispatch R permits form_filler name arguments w = (Raised (ValueError ("Unknown tool: " +:+ name)), w).
Proof.
  intros Hname. unfold dispatch.
  repeat (rewrite bool_decide_eq_false_2;
          [|intros ->; apply Hname; unfold tool_names; simpl; tauto]).
  done.
Qed.

(** The three tools that take a permit id look the permit up first, and
    raise when there is none. *)
Lemma dispatch_permit_not_found (name : string) (a : Arguments) (w : World) :
  In name ["preview_permit"; "fill_permit_form"; "validate_permit_data"] ->
  get_permit_by_id permits (permitId a) = None ->
  dispatch R permits form_filler name (Some a) w =
    (Raised (ValueError ("Permit not found: " +:+ str_opt (permitId a))), w).
Proof.
  intros Hname Hnone.
  assert (forall rest : option string -> gmap string value -> Permit -> M (list TextContent),
    (permit_id ← arguments_get (Some a) permitId;
     project_data ← arguments_get_default (Some a) projectData ∅;
     permit ← lookup_permit permits permit_id;
     rest permit_id project_data permit) w =
    (Raised (ValueError ("Permit not found: " +:+ str_opt (permitId a))), w)) as Hlookup.
  { intros rest. unfold mbind, M_bind, arguments_get_default, arguments_get, lookup_permit.
    simpl. unfold mbind, M_bind. simpl. by rewrite Hnone. }
  destruct Hname as [<- | [<- | [<- | []]]].
  - apply (Hlookup (fun permit_id project_data permit => _)).
  - apply (Hlookup (fun permit_id project_data permit => _)).
  - apply (Hlookup (fun permit_id project_data permit => _)).
Qed.

End ServerFacts.

(** C8.  Whatever the tool name and the arguments, [handle_call_tool]
    returns a response: an exception raised by the dispatch is answered
    with the text [Error: ] and its message, and the world is as the
    dispatch left it; a name that is not one of the tools is answered with
    [Error: Unknown tool: ] and the name, and nothing has changed. *)
Theorem handle_call_tool_never_raises (R : Runtime) (permits : list Permit)
    (form_filler : FormFiller) (name : string) (arguments : option Arguments) (w : World) :
  exists response w',
    handle_call_tool R permits form_filler name arguments w = (Returned response, w') /\
    (forall e w1, dispatch R permits form_filler name arguments w = (Raised e, w1) ->
       response = respond_text ("Error: " +:+ str_exn e) /\ w' = w1) /\
    (forall r w1, dispatch R permits form_filler name arguments w = (Returned r, w1) ->
       response = r /\ w' = w1) /\
    (~ In name tool_names ->
       response = respond_text ("Error: Unknown tool: " +:+ name) /\ w' = w).
Proof.
  destruct (dispatch R permits form_filler name arguments w) as [[r | e] w1] eqn:Hrun.
  - exists r, w1. split; [by apply handle_call_tool_returned|].
    split; [done|]. split; [by intros r' w1' [= <- <-]|].
    intros Hname. by rewrite dispatch_unknown in Hrun.
  - exists (respond_text ("Error: " +:+ str_exn e)), w1.
    split; [by apply handle_call_tool_raised|].
    split; [by intros e' w1' [= <- <-]|]. split; [done|].
    intros Hname. rewrite dispatch_unknown in Hrun by done. by injection Hrun as <- <-.
Qed.

(** C7.  [fill_permit_form] with an id that no permit of the catalog has is
    answered with [Error: Permit not found: ] and the id; the world, and so
    the saved files and the render log, is unchanged. *)
Theorem fill_permit_form_unknown_permit (R : Runtime) (permits : list Permit)
    (form_filler : FormFiller) (a : Arguments) (permit_id : string) (w : World) :
  permitId a = Some permit_id ->
  (forall P, In P permits -> p_id P <> permit_id) ->
  exists message w',
    handle_call_tool R permits form_filler "fill_permit_form" (Some a) w =
      (Returned [ {| text := message |} ], w') /\
    message = "Error: Permit not found: " +:+ permit_id /\
    Str.substring "Permit not found" message /\
    w' = w /\ fs_files w' = fs_files w /\ render_log w' = render_log w.
Proof.
  intros Hid Hnone. exists ("Error: Permit not found: " +:+ permit_id), w.
  split; [|split; [done|split; [|done]]].
  - rewrite (handle_call_tool_raised R permits form_filler _ _ w w
               (ValueError ("Permit not found: " +:+ permit_id))); [done|].
    rewrite dispatch_permit_not_found; [by rewrite Hid | simpl; tauto |].
    apply get_permit_by_id_none. intros P HP. rewrite Hid. intros [= H]. by apply (Hnone P).
  - by exists "Error: ", (": " +:+ permit_id).
Qed.

Lemma fill_permit_form_unknown_permit_witness :
  exists message w',
    handle_call_tool Demo.runtime Demo.catalog Demo.filler "fill_permit_form"
      (Some (Demo.args_for "demolition" Demo.jane)) Demo.world =
      (Returned [ {| text := message |} ], w') /\
    message = "Error: Permit not found: demolition" /\
    Str.substring "Permit not found" message /\
    w' = Demo.world /\ fs_files w' = fs_files Demo.world /\
    render_log w' = render_log Demo.world.
Proof.
  apply (fill_permit_form_unknown_permit Demo.runtime Demo.catalog Demo.filler
           (Demo.args_for "demolition" Demo.jane) "demolition" Demo.world).
  - reflexivity.
  - intros P [<- | [<- | []]]; done.
Defined.

(** C10.  [preview_permit], [fill_permit_form] and [validate_permit_data]
    called without [permitId] look the permit up with [None], find none, and
    answer [Error: Permit not found: None]: the answer an unknown id gets,
    with [None] for the id.  Nothing has changed. *)
Theorem missing_permit_id_is_permit_not_found (R : Runtime) (permits : list Permit)
    (form_filler : FormFiller) (name : string) (a : Arguments) (w : World) :
  In name ["preview_permit"; "fill_permit_form"; "validate_permit_data"] ->
  permitId a = None ->
  get_permit_by_id permits (permitId a) = None /\
  handle_call_tool R permits form_filler name (Some a) w =
    (Returned (respond_text ("Error: Permit not found: " +:+ "None")), w) /\
  forall (a' : Arguments) (permit_id : string),
    permitId a' = Some permit_id ->
    (forall P, In P permits -> p_id P <> permit_id) ->
    handle_call_tool R permits form_filler name (Some a') w =
      (Returned (respond_text ("Error: Permit not found: " +:+ permit_id)), w).
Proof.
  intros Hname Hid. split; [|split].
  - rewrite Hid. apply get_permit_by_id_no_id.
  - rewrite (handle_call_tool_raised R permits form_filler _ _ w w
               (ValueError ("Permit not found: " +:+ "None"))); [done|].
    rewrite dispatch_permit_not_found; [by rewrite Hid | done |].
    rewrite Hid. apply get_permit_by_id_no_id.
  - intros a' permit_id Hid' Hnone.
    rewrite (handle_call_tool_raised R permits form_filler _ _ w w
               (ValueError ("Permit not found: " +:+ permit_id))); [done|].
    rewrite dispatch_permit_not_found; [by rewrite Hid' | done |].
    apply get_permit_by_id_none. intros P HP. rewrite Hid'. intros [= H]. by apply (Hnone P).
Qed.

Lemma missing_permit_id_is_permit_not_found_witness :
  get_permit_by_id Demo.catalog None = None /\
  handle_call_tool Demo.runtime Demo.catalog Demo.filler "validate_permit_data"
    (Some (Demo.args "wiring" Demo.jane)) Demo.world =
    (Returned (respond_text "Error: Permit not found: None"), Demo.world) /\
  forall (a' : Arguments) (permit_id : string),
    permitId a' = Some permit_id ->
    (forall P, In P Demo.catalog -> p_id P <> permit_id) ->
    handle_call_tool Demo.runtime Demo.catalog Demo.filler "validate_permit_data"
      (Some a') Demo.world =
      (Returned (respond_text ("Error: Permit not found: " +:+ permit_id)), Demo.world).
Proof.
  apply (missing_permit_id_is_permit_not_found Demo.runtime Demo.catalog Demo.filler
           "validate_permit_data" (Demo.args "wiring" Demo.jane) Demo.world).
  - simpl. tauto.
  - reflexivity.
Defined.

(** C5.  [fill_permit_form] for a permit of the catalog and project data
    in which a required field is absent or false is answered with the
    payload of [success] false, the error text, the missing fields and the
    permit name; it does not raise, and the world, and so the saved files
    and the render log, is unchanged. *)
Theorem fill_permit_form_missing_fields (R : Runtime) (permits : list Permit)
    (form_filler : FormFiller) (a : Arguments) (permit : Permit) (w : World) :
  let data := default ∅ (projectData a) in
  let validation := validate_required_fields data (p_requiredFields permit) in
  get_permit_by_id permits (permitId a) = Some permit ->
  (exists f, In f (p_requiredFields permit) /\
     (data !! f = None \/ exists v, data !! f = Some v /\ truthy v = false)) ->
  exists w',
    handle_call_tool R permits form_filler "fill_permit_form" (Some a) w =
      (Returned
         [ {| text :=
                rt_json_dumps R
                  (VDict [("success", VBool false);
                          ("error", VStr "Missing required fields");
                          ("missingFields", VList (map VStr (missingFields validation)));
                          ("permitName", VStr (p_name permit))]) |} ],
       w') /\
    missingFields validation <> [] /\
    w' = w /\ fs_files w' = fs_files w /\ render_log w' = render_log w.
Proof.
  intros data validation Hfound [f [Hf Hmissing]].
  assert (valid validation = false) as Hinvalid.
  { apply invalid_iff_some_missing. exists f. split; [done|]. by apply field_missing_spec. }
  exists w. split; [|split; [|done]].
  - apply handle_call_tool_returned.
    change (dispatch R permits form_filler "fill_permit_form" (Some a) w)
      with (tool_fill_permit_form R permits form_filler (Some a) w).
    cbv beta iota delta [tool_fill_permit_form mbind M_bind arguments_get_default
      arguments_get lookup_permit mret M_ret].
    rewrite Hfound. cbv beta iota zeta. fold data. fold validation. by rewrite Hinvalid.
  - intros Hnil. apply valid_true_iff in Hnil. fold validation in Hnil. congruence.
Qed.

Lemma fill_permit_form_missing_fields_witness :
  exists w',
    handle_call_tool Demo.runtime Demo.catalog Demo.filler "fill_permit_form"
      (Some (Demo.args_for "electrical" Demo.jane)) Demo.world =
      (Returned
         [ {| text :=
                Demo.dumps
                  (VDict [("success", VBool false);
                          ("error", VStr "Missing required fields");
                          ("missingFields", VList [VStr "electricianLicense"]);
                          ("permitName", VStr "Electrical Permit")]) |} ],
       w') /\
    ["electricianLicense"] <> [] /\
    w' = Demo.world /\ fs_files w' = fs_files Demo.world /\
    render_log w' = render_log Demo.world.
Proof.
  apply (fill_permit_form_missing_fields Demo.runtime Demo.catalog Demo.filler
           (Demo.args_for "electrical" Demo.jane) Demo.electrical Demo.world).
  - reflexivity.
  - exists "electricianLicense". split; [simpl; tauto | by left].
Defined.

Section FillAllFacts.

Variable R : Runtime.
Variable permits : list Permit.
Variable form_filler : FormFiller.
Variable project_data : gmap string value.






End FillAllFacts.



(** The first permit fails to render and the second is filled all the
    same: its document is the one file saved, under the name of the ninth
    clock reading, after the four readings of the failed permit; the engine
    was asked to render both. *)
Example fill_all_continues_after_failure :
  let run :=
    handle_call_tool Scenario.building_fails_runtime Demo.catalog Demo.filler
      "fill_all_required_permits"
      (Some (Demo.args "New wiring and an addition" Demo.jane_full)) Demo.world in
  run.1 =
    Returned
      [ {| text :=
             Demo.dumps
               (VDict
                  [("totalPermits", VInt 2);
                   ("results",
                    VList
                      [error_entry (permit_info Demo.building)
                         (EngineError "template syntax error");
                       fill_result "Electrical Permit"
                         "electrical-permit-20240307-140508.docx"
                         "output/electrical-permit-20240307-140508.docx"]);
                   ("message", VStr "All required permits have been processed")]) |} ] /\
  doc_template <$> fs_files run.2 !! "output/electrical-permit-20240307-140508.docx" =
    Some "templates/electrical.docx" /\
  size (fs_files run.2) = 1%nat /\
  map fst (render_log run.2) = ["templates/building.docx"; "templates/electrical.docx"] /\
  tick run.2 = 9%nat.
Proof.
  cbv zeta. split; [|split; [|split; [|split]]]; vm_compute; reflexivity.
Qed.

(** The scenario of the specification: the first permit is filled, the
    second lacks a field, and both are reported. *)
Example fill_all_partial_success :
  (handle_call_tool Demo.runtime Demo.catalog Demo.filler "fill_all_required_permits"
     (Some (Demo.args "New wiring and an addition"
              (<["projectAddress" := VStr "1 Elm St"]> Demo.jane)))
     Demo.world).1 =
  Returned
    [ {| text :=
           Demo.dumps
             (VDict
                [("totalPermits", VInt 2);
                 ("results",
                  VList
                    [fill_result "Building Permit" "building-permit-20240307-140504.docx"
                       "output/building-permit-20240307-140504.docx";
                     missing_entry Demo.electrical
                       {| valid := false; missingFields := ["electricianLicense"] |}]);
                 ("message", VStr "All required permits have been processed")]) |} ].
Proof. vm_compute. reflexivity. Qed.

(** A document engine that fails on every permit still yields one entry
    for each. *)
Example fill_all_engine_failure :
  (handle_call_tool Demo.failing_runtime Demo.catalog Demo.filler
     "fill_all_required_permits"
     (Some (Demo.args "New wiring and an addition" Demo.jane_full)) Demo.world).1 =
  Returned
    [ {| text :=
           Demo.dumps
             (VDict
                [("totalPermits", VInt 2);
                 ("results",
                  VList
                    [error_entry (permit_info Demo.building)
                       (EngineError "template syntax error");
                     error_entry (permit_info Demo.electrical)
                       (EngineError "template syntax error")]);
                 ("message", VStr "All required permits have been processed")]) |} ].
Proof. vm_compute. reflexivity. Qed.

(** The scenario of the specification for the matcher and the validator. *)
Example resolve_wiring_upgrade :
  identify_permits Str.ascii_lower [Demo.electrical] "Need wiring upgrade" None =
  [permit_info Demo.electrical].
Proof. reflexivity. Qed.

Example validate_jane :
  validate_required_fields Demo.jane ["ownerName"; "electricianLicense"] =
  {| valid := false; missingFields := ["electricianLicense"] |}.
Proof. vm_compute. reflexivity. Qed.

(** What the boundary answers when the arguments are missing altogether,
    when the template file is not there, and when the tool is unknown. *)
Example no_arguments_answer :
  (handle_call_tool Demo.runtime Demo.catalog Demo.filler "preview_permit" None
     Demo.world).1 =
  Returned [ {| text := "Error: 'NoneType' object has no attribute 'get'" |} ].
Proof. reflexivity. Qed.

Example no_template_answer :
  handle_call_tool Demo.runtime
    [mkPermit "sign" "Sign Permit" ["sign"] ["ownerName"] "sign.docx"] Demo.filler
    "fill_permit_form" (Some (Demo.args_for "sign" Demo.jane)) Demo.world =
  (Returned [ {| text := "Error: Template not found: templates/sign.docx" |} ], Demo.world).
Proof. vm_compute. reflexivity. Qed.

Example unknown_tool_answer :
  handle_call_tool Demo.runtime Demo.catalog Demo.filler "delete_permit" None Demo.world =
  (Returned [ {| text := "Error: Unknown tool: delete_permit" |} ], Demo.world).
Proof. reflexivity. Qed.

(** A later reading has the later file name. *)
Example later_stamp_sorts_after :
  String.compare (Strftime.YmdHMS (Demo.clock 4)) (Strftime.YmdHMS (Demo.clock 9)) = Lt.
Proof. reflexivity. Qed.

(** * Further properties *)

(** ** PermitMatcher, further *)

Lemma ascii_lower_append (a b : string) :
  Str.ascii_lower (a +:+ b) = Str.ascii_lower a +:+ Str.ascii_lower b.
Proof. induction a as [|c a IH]; [done|]. simpl. by rewrite IH. Qed.

Lemma ascii_lower_splits_at_space : lower_splits_at_space Str.ascii_lower.
Proof. split; [done|]. intros a b. by rewrite !ascii_lower_append. Qed.

Lemma append_assoc (a b c : string) : (a +:+ b) +:+ c = a +:+ b +:+ c.
Proof.
  induction a as [|x a IH]; [done|].
  change (String x ((a +:+ b) +:+ c) = String x (a +:+ b +:+ c)). by rewrite IH.
Qed.

Lemma append_empty_r (a : string) : a +:+ "" = a.
Proof.
  induction a as [|x a IH]; [done|].
  change (String x (a +:+ "") = String x a). by rewrite IH.
Qed.

Lemma substring_refl (s : string) : Str.substring s s.
Proof. exists "", "". simpl. by rewrite append_empty_r. Qed.

Lemma substring_append_l (t a b : string) : Str.substring t a -> Str.substring t (a +:+ b).
Proof.
  intros [pre [post ->]]. exists pre, (post +:+ b). by rewrite !append_assoc.
Qed.

Lemma substring_append_r (t a b : string) : Str.substring t b -> Str.substring t (a +:+ b).
Proof.
  intros [pre [post ->]]. exists (a +:+ pre), post. by rewrite !append_assoc.
Qed.

Lemma filter_matches_ext (lower : string -> string) (text text' : string)
    (permits : list Permit) :
  (forall P, In P permits -> matches lower text P = true -> matches lower text' P = true) ->
  forall P, In P (List.filter (matches lower text) permits) ->
            In P (List.filter (matches lower text') permits).
Proof.
  intros H P HP. apply filter_In in HP as [HP Hm]. apply filter_In. split; [done|].
  by apply H.
Qed.

(** Joining one more work type appends a space and the work type. *)
Lemma join_snoc (l : list string) (x : string) :
  l <> [] -> Str.join " " (l ++ [x]) = Str.join " " l +:+ " " +:+ x.
Proof.
  induction l as [|y l IH]; [done|]. intros _. destruct l as [|z l].
  - reflexivity.
  - change (Str.join " " ((y :: z :: l) ++ [x]))
      with (y +:+ " " +:+ Str.join " " ((z :: l) ++ [x])).
    rewrite IH by done.
    change (Str.join " " (y :: z :: l)) with (y +:+ " " +:+ Str.join " " (z :: l)).
    by rewrite !append_assoc.
Qed.

Section SearchText.

Variable lower : string -> string.
Hypothesis Hsplit : lower_splits_at_space lower.

Lemma search_text_split (description : string) (work_types : list string) :
  search_text lower description work_types =
  lower description +:+ " " +:+ lower (Str.join " " work_types).
Proof. unfold search_text. apply Hsplit. Qed.

(** With one more work type the text searched begins as it did before. *)
Lemma search_text_snoc (description : string) (work_types : list string) (x : string) :
  exists more,
    search_text lower description (work_types ++ [x]) =
    search_text lower description work_types +:+ more.
Proof.
  destruct Hsplit as [Hempty Hspace].
  rewrite !search_text_split. destruct work_types as [|w ws].
  - exists (lower x). simpl. rewrite Hempty. by rewrite !append_assoc.
  - rewrite join_snoc by done. rewrite Hspace.
    exists (" " +:+ lower x). by rewrite !append_assoc.
Qed.

(** The lower-cased work type is part of the lower-cased joined work types. *)
Lemma lower_join_member (work_types : list string) (w : string) :
  In w work_types -> Str.substring (lower w) (lower (Str.join " " work_types)).
Proof.
  destruct Hsplit as [Hempty Hspace].
  induction work_types as [|y l IH]; [done|]. intros Hin. destruct l as [|z l].
  - destruct Hin as [-> | []]. apply substring_refl.
  - change (Str.join " " (y :: z :: l)) with (y +:+ " " +:+ Str.join " " (z :: l)).
    rewrite Hspace. destruct Hin as [-> | Hin].
    + apply substring_append_l, substring_refl.
    + apply substring_append_r, substring_append_r. by apply IH.
Qed.

Lemma lower_join_ext (l l' : list string) :
  Forall2 (fun w w' => lower w = lower w') l l' ->
  lower (Str.join " " l) = lower (Str.join " " l').
Proof.
  destruct Hsplit as [Hempty Hspace].
  induction 1 as [|w w' l l' Hw Hl IH]; [done|].
  destruct Hl as [|z z' l l' Hz Hl].
  - exact Hw.
  - change (Str.join " " (w :: z :: l)) with (w +:+ " " +:+ Str.join " " (z :: l)).
    change (Str.join " " (w' :: z' :: l')) with (w' +:+ " " +:+ Str.join " " (z' :: l')).
    by rewrite !Hspace, Hw, IH.
Qed.

End SearchText.

(** X1.  The permits identified in a catalog made of two parts are those
    identified in the first part followed by those identified in the
    second: whether a permit is returned does not depend on the other
    permits of the catalog. *)
Theorem identify_permits_app (lower : string -> string) (permits1 permits2 : list Permit)
    (description : string) (work_types : option (list string)) :
  identify_permits lower (permits1 ++ permits2) description work_types =
  (identify_permits lower permits1 description work_types ++
   identify_permits lower permits2 description work_types)%list.
Proof.
  rewrite !identify_permits_filter. by rewrite List.filter_app, map_app.
Qed.

(** X2.  A permit one of whose triggers is the empty string is returned for
    every request, and a permit without triggers for none. *)
Theorem identify_permits_trigger_edges (lower : string -> string) (permits : list Permit)
    (description : string) (work_types : option (list string)) (P : Permit) :
  lower "" = "" ->
  In P permits ->
  (In "" (p_triggers P) ->
   In (permit_info P) (identify_permits lower permits description work_types)) /\
  (p_triggers P = [] ->
   identify_permits lower [P] description work_types = []).
Proof.
  intros Hempty HP. split.
  - intros Htrigger. rewrite identify_permits_filter. apply in_map, filter_In.
    split; [done|]. apply matches_spec. exists "". split; [done|].
    rewrite Hempty. apply StrFacts.occurs_in_spec, StrFacts.occurs_in_empty.
  - intros Hnone. rewrite identify_permits_filter. simpl. unfold matches.
    by rewrite Hnone.
Qed.

Lemma identify_permits_trigger_edges_witness :
  (In "" (p_triggers Scenario.general) ->
   In (permit_info Scenario.general)
     (identify_permits Str.ascii_lower [Demo.building; Scenario.general]
        "repaint the hall" None)) /\
  (p_triggers Scenario.general = [] ->
   identify_permits Str.ascii_lower [Scenario.general] "repaint the hall" None = []).
Proof.
  apply (identify_permits_trigger_edges Str.ascii_lower
           [Demo.building; Scenario.general] "repaint the hall" None Scenario.general).
  - reflexivity.
  - simpl. tauto.
Defined.

(** X3.  Giving more work types never loses a permit: every permit
    returned for a description and some work types is returned for the same
    description and those work types followed by others. *)
Theorem identify_permits_more_work_types (lower : string -> string)
    (permits : list Permit) (description : string) (work_types more : list string)
    (info : PermitInfo) :
  lower_splits_at_space lower ->
  In info (identify_permits lower permits description (Some work_types)) ->
  In info (identify_permits lower permits description (Some (work_types ++ more)%list)).
Proof.
  intros Hsplit. revert work_types.
  induction more as [|x more IH]; intros work_types Hin.
  - by rewrite app_nil_r.
  - replace (work_types ++ x :: more)%list with ((work_types ++ [x]) ++ more)%list
      by (by rewrite <- app_assoc).
    apply IH. revert Hin. rewrite !identify_permits_filter, !in_map_iff.
    intros [P [Hinfo HP]]. exists P. split; [done|]. clear Hinfo. revert P HP.
    apply filter_matches_ext. intros P _ Hm. simpl.
    apply matches_spec in Hm as [t [Ht Hsub]]. apply matches_spec. exists t.
    split; [done|].
    destruct (search_text_snoc lower Hsplit description work_types x) as [rest ->].
    by apply substring_append_l.
Qed.

Lemma identify_permits_more_work_types_witness :
  In (permit_info Demo.electrical)
    (identify_permits Str.ascii_lower Demo.catalog "Kitchen remodel"
       (Some (["Wiring"] ++ ["addition"])%list)).
Proof.
  apply (identify_permits_more_work_types Str.ascii_lower Demo.catalog "Kitchen remodel"
           ["Wiring"] ["addition"] (permit_info Demo.electrical)).
  - exact ascii_lower_splits_at_space.
  - simpl. tauto.
Defined.

(** X4.  A permit is returned as soon as one of its triggers occurs,
    letter case aside, in the description or in one of the work types. *)
Theorem identify_permits_keyword_suffices (lower : string -> string)
    (permits : list Permit) (description : string) (work_types : list string)
    (P : Permit) (t : string) :
  lower_splits_at_space lower ->
  In P permits ->
  In t (p_triggers P) ->
  Str.substring (lower t) (lower description) \/
    (exists w, In w work_types /\ Str.substring (lower t) (lower w)) ->
  In (permit_info P) (identify_permits lower permits description (Some work_types)).
Proof.
  intros Hsplit HP Ht Hoccurs.
  rewrite identify_permits_filter. apply in_map, filter_In. split; [done|].
  apply matches_spec. exists t. split; [done|]. simpl.
  rewrite (search_text_split lower Hsplit).
  destruct Hoccurs as [Hd | [w [Hw Hsub]]].
  - by apply substring_append_l.
  - apply substring_append_r, substring_append_r.
    destruct (lower_join_member lower Hsplit work_types w Hw) as [pre [post ->]].
    by apply substring_append_r, substring_append_l.
Qed.

Lemma identify_permits_keyword_suffices_witness :
  In (permit_info Demo.building)
    (identify_permits Str.ascii_lower Demo.catalog "Garage"
       (Some ["Roofing"; "New CONSTRUCTION"])).
Proof.
  apply (identify_permits_keyword_suffices Str.ascii_lower Demo.catalog "Garage"
           ["Roofing"; "New CONSTRUCTION"] Demo.building "Construction").
  - exact ascii_lower_splits_at_space.
  - simpl. tauto.
  - simpl. tauto.
  - right. exists "New CONSTRUCTION". split; [simpl; tauto|].
    by apply StrFacts.occurs_in_spec.
Defined.

(** X5.  Two requests whose descriptions lower-case alike and whose work
    types lower-case alike, one by one, get the same permits. *)
Theorem identify_permits_ignores_case (lower : string -> string) (permits : list Permit)
    (description description' : string) (work_types work_types' : list string) :
  lower_splits_at_space lower ->
  lower description = lower description' ->
  Forall2 (fun w w' => lower w = lower w') work_types work_types' ->
  identify_permits lower permits description (Some work_types) =
  identify_permits lower permits description' (Some work_types').
Proof.
  intros Hsplit Hd Hw. rewrite !identify_permits_filter. simpl.
  rewrite !(search_text_split lower Hsplit), Hd.
  by rewrite (lower_join_ext lower Hsplit work_types work_types' Hw).
Qed.

Lemma identify_permits_ignores_case_witness :
  identify_permits Str.ascii_lower Demo.catalog "NEW WIRING" (Some ["Addition"]) =
  identify_permits Str.ascii_lower Demo.catalog "new wiring" (Some ["ADDITION"]).
Proof.
  apply (identify_permits_ignores_case Str.ascii_lower Demo.catalog).
  - exact ascii_lower_splits_at_space.
  - reflexivity.
  - repeat constructor.
Defined.

(** X6.  [get_permit_by_id] returns the first permit of the catalog that
    has the id asked for, and [None] exactly when no permit has it; a later
    permit under the same id is never returned. *)
Theorem get_permit_by_id_first (permits : list Permit) (permit_id : string) :
  (forall P,
     get_permit_by_id permits (Some permit_id) = Some P <->
     exists before after,
       permits = (before ++ P :: after)%list /\ p_id P = permit_id /\
       forall Q, In Q before -> p_id Q <> permit_id) /\
  (get_permit_by_id permits (Some permit_id) = None <->
   forall Q, In Q permits -> p_id Q <> permit_id).
Proof.
  split.
  - intros P. unfold get_permit_by_id.
    induction permits as [|Q permits IH]; simpl.
    + split; [done|]. intros (before & after & H & _). by destruct before.
    + case_bool_decide as Hid.
      * split.
        -- intros [= <-]. exists [], permits. split; [done|]. split; [done|]. by intros Q' [].
        -- intros (before & after & H & HP & Hbefore). destruct before as [|B before].
           ++ by injection H as ->.
           ++ injection H as <- _. exfalso. apply (Hbefore Q); [by left | done].
      * rewrite IH. split.
        -- intros (before & after & -> & HP & Hbefore).
           exists (Q :: before), after. split; [done|]. split; [done|].
           intros Q' [<- | HQ']; [done | by apply Hbefore].
        -- intros (before & after & H & HP & Hbefore). destruct before as [|B before].
           ++ injection H as -> _. done.
           ++ injection H as <- ->. exists before, after. split; [done|]. split; [done|].
              intros Q' HQ'. apply Hbefore. by right.
  - rewrite get_permit_by_id_none. split.
    + intros H Q HQ Heq. apply (H Q HQ). by rewrite Heq.
    + intros H Q HQ [= Heq]. by apply (H Q HQ).
Qed.

(** A catalog whose two electrical permits share an id: the second one
    cannot be looked up. *)
Example get_permit_by_id_shadowed :
  get_permit_by_id [Demo.building; Demo.electrical; Scenario.electrical_duplicate]
    (Some "electrical") = Some Demo.electrical.
Proof. reflexivity. Qed.

Lemma get_permit_by_id_unique (permits : list Permit) (P : Permit) :
  NoDup (map p_id permits) -> In P permits ->
  get_permit_by_id permits (Some (p_id P)) = Some P.
Proof.
  unfold get_permit_by_id. induction permits as [|Q permits IH]; [done|].
  simpl. intros Hids HP. apply NoDup_cons in Hids as [Hfresh Hids].
  case_bool_decide as Hid.
  - destruct HP as [-> | HP]; [done|]. exfalso. apply Hfresh.
    apply list_elem_of_In, in_map_iff. exists P. by split.
  - destruct HP as [-> | HP]; [done|]. by apply IH.
Qed.

(** X7.  In a catalog whose ids are distinct, looking up the id of a
    permit that [identify_permits] returned gives the catalog entry the
    result was made from: the same id, name, template and required
    fields. *)
Theorem identify_then_get_permit_by_id (lower : string -> string) (permits : list Permit)
    (description : string) (work_types : option (list string)) (info : PermitInfo) :
  NoDup (map p_id permits) ->
  In info (identify_permits lower permits description work_types) ->
  exists P,
    get_permit_by_id permits (Some (i_id info)) = Some P /\
    In P permits /\ permit_info P = info.
Proof.
  intros Hids Hinfo. rewrite identify_permits_filter in Hinfo.
  apply in_map_iff in Hinfo as [P [<- HP]]. apply filter_In in HP as [HP _].
  exists P. split; [|done]. by apply (get_permit_by_id_unique permits P).
Qed.

Lemma identify_then_get_permit_by_id_witness :
  exists P,
    get_permit_by_id Demo.catalog (Some "electrical") = Some P /\
    In P Demo.catalog /\ permit_info P = permit_info Demo.electrical.
Proof.
  apply (identify_then_get_permit_by_id Str.ascii_lower Demo.catalog "Need wiring upgrade"
           None (permit_info Demo.electrical)).
  - apply (bool_decide_unpack (NoDup (map p_id Demo.catalog))). by vm_compute.
  - simpl. tauto.
Defined.

(** With a shared id the lookup gives another permit than the one that
    matched: the request for a service panel is resolved to the old form
    and looked up as the new one. *)
Example identify_then_get_permit_by_id_shared :
  let catalog := [Demo.electrical; Scenario.electrical_duplicate] in
  identify_permits Str.ascii_lower catalog "New service panel" None =
    [permit_info Scenario.electrical_duplicate] /\
  get_permit_by_id catalog (Some (p_id Scenario.electrical_duplicate)) =
    Some Demo.electrical.
Proof. split; reflexivity. Qed.

(** X8.  Every permit [identify_permits] returns is one [list_all_permits]
    lists, under the same id and name; the list has one entry for each
    catalog entry, in catalog order. *)
Theorem identified_permits_are_listed (lower : string -> string) (permits : list Permit)
    (description : string) (work_types : option (list string)) :
  map l_id (list_all_permits permits) = map p_id permits /\
  List.length (list_all_permits permits) = List.length permits /\
  forall info,
    In info (identify_permits lower permits description work_types) ->
    exists listing,
      In listing (list_all_permits permits) /\
      l_id listing = i_id info /\ l_name listing = i_name info.
Proof.
  unfold list_all_permits. split; [by rewrite map_map|]. split; [apply length_map|].
  intros info Hinfo. rewrite identify_permits_filter in Hinfo.
  apply in_map_iff in Hinfo as [P [<- HP]]. apply filter_In in HP as [HP _].
  eexists. split; [apply in_map_iff; exists P; split; [reflexivity | done]|]. done.
Qed.

(** ** FormFiller.validate_required_fields, further *)

Lemma field_missing_insert_ne (D : gmap string value) (k f : string) (v : value) :
  k <> f -> field_missing (<[k := v]> D) f = field_missing D f.
Proof. intros Hne. unfold field_missing. by rewrite lookup_insert_ne. Qed.

Lemma field_missing_insert_eq (D : gmap string value) (f : string) (v : value) :
  field_missing (<[f := v]> D) f = negb (truthy v).
Proof. unfold field_missing. by rewrite lookup_insert_eq. Qed.

Lemma missing_of_ext (D D' : gmap string value) (R : list string) :
  (forall f, In f R -> field_missing D' f = field_missing D f) ->
  missing_of D' R = missing_of D R.
Proof.
  induction R as [|f R IH]; [done|]. intros H. simpl.
  rewrite (H f) by (by left). rewrite IH; [done|]. intros g Hg. apply H. by right.
Qed.

Lemma validate_ext (D D' : gmap string value) (R : list string) :
  (forall f, In f R -> field_missing D' f = field_missing D f) ->
  validate_required_fields D' R = validate_required_fields D R.
Proof. intros H. unfold validate_required_fields. by rewrite (missing_of_ext D D' R H). Qed.

Lemma filter_filter_andb {A : Type} (p q : A -> bool) (l : list A) :
  List.filter p (List.filter q l) = List.filter (fun x => q x && p x) l.
Proof.
  induction l as [|x l IH]; [done|]. simpl.
  destruct (q x); simpl; [|done]. destruct (p x); by rewrite IH.
Qed.

(** X9.  Against empty project data every required field is reported
    missing, in order, so that only a permit without required fields is
    valid; and without required fields any data is valid. *)
Theorem validate_required_fields_empty (D : gmap string value) (R : list string) :
  missingFields (validate_required_fields ∅ R) = R /\
  (valid (validate_required_fields ∅ R) = true <-> R = []) /\
  validate_required_fields D [] = {| valid := true; missingFields := [] |}.
Proof.
  assert (missing_of ∅ R = R) as Hall.
  { induction R as [|f R IH]; [done|]. simpl. unfold field_missing at 1.
    rewrite lookup_empty. by rewrite IH. }
  split; [exact Hall|]. split; [|done].
  rewrite valid_true_iff. simpl. by rewrite Hall.
Qed.

(** X10.  Keys that are not required do not count: setting or removing
    such a key leaves the result of the validation as it was. *)
Theorem validate_required_fields_unknown_key (D : gmap string value) (R : list string)
    (k : string) (v : value) :
  ~ In k R ->
  validate_required_fields (<[k := v]> D) R = validate_required_fields D R /\
  validate_required_fields (delete k D) R = validate_required_fields D R.
Proof.
  intros Hk. split; apply validate_ext; intros f Hf; unfold field_missing.
  - rewrite lookup_insert_ne; [done|]. by intros ->.
  - rewrite lookup_delete_ne; [done|]. by intros ->.
Qed.

Lemma validate_required_fields_unknown_key_witness :
  validate_required_fields (<["nickname" := VStr ""]> Demo.jane)
    ["ownerName"; "electricianLicense"] =
    validate_required_fields Demo.jane ["ownerName"; "electricianLicense"] /\
  validate_required_fields (delete "nickname" Demo.jane)
    ["ownerName"; "electricianLicense"] =
    validate_required_fields Demo.jane ["ownerName"; "electricianLicense"].
Proof.
  apply (validate_required_fields_unknown_key Demo.jane
           ["ownerName"; "electricianLicense"] "nickname" (VStr "")).
  simpl. intros [H | [H | []]]; discriminate H.
Defined.

(** X11.  Supplying a true value for a field removes that field, and only
    that field, from the missing fields; supplying a false value ([None],
    zero, the empty string ..) makes the field missing whenever it is
    required. *)
Theorem validate_required_fields_supply (D : gmap string value) (R : list string)
    (f : string) (v : value) :
  (truthy v = true ->
   missingFields (validate_required_fields (<[f := v]> D) R) =
   List.filter (fun g => negb (bool_decide (g = f)))
     (missingFields (validate_required_fields D R))) /\
  (truthy v = false ->
   forall g, In g (missingFields (validate_required_fields (<[f := v]> D) R)) <->
             In g R /\ (g = f \/ In g (missingFields (validate_required_fields D R)))).
Proof.
  simpl. rewrite !missing_of_filter. split.
  - intros Hv. rewrite filter_filter_andb. apply List.filter_ext. intros g.
    case_bool_decide as Hg; simpl.
    + subst g. rewrite field_missing_insert_eq, Hv. simpl. by rewrite andb_false_r.
    + rewrite field_missing_insert_ne by done. by rewrite andb_true_r.
  - intros Hv g. rewrite !filter_In. destruct (decide (g = f)) as [-> | Hg].
    + rewrite field_missing_insert_eq, Hv. simpl. tauto.
    + rewrite field_missing_insert_ne by done. intuition congruence.
Qed.

(** X12.  Data that keeps the required fields that were in order and
    gives a true value to each field reported missing is valid. *)
Theorem validate_required_fields_repair (D D' : gmap string value) (R : list string) :
  (forall f, In f (missingFields (validate_required_fields D R)) ->
     exists v, D' !! f = Some v /\ truthy v = true) ->
  (forall f, In f R -> ~ In f (missingFields (validate_required_fields D R)) ->
     D' !! f = D !! f) ->
  valid (validate_required_fields D' R) = true /\
  missingFields (validate_required_fields D' R) = [].
Proof.
  simpl. rewrite !missing_of_filter. intros Hfixed Hkept.
  assert (List.filter (field_missing D') R = []) as Hnone.
  { assert (forall f, In f R -> field_missing D' f = false) as Hall.
    { intros f Hf. destruct (field_missing D f) eqn:Hm.
      - destruct (Hfixed f) as [v [Hv Ht]]; [by apply filter_In|].
        unfold field_missing. by rewrite Hv, Ht.
      - unfold field_missing in *. rewrite Hkept; [done | done |].
        rewrite filter_In. intros [_ H]. unfold field_missing in H. congruence. }
    clear Hfixed Hkept. induction R as [|f R IH]; [done|]. simpl.
    rewrite (Hall f) by (by left). apply IH. intros g Hg. apply Hall. by right. }
  by rewrite Hnone.
Qed.

Lemma validate_required_fields_repair_witness :
  valid (validate_required_fields Demo.jane_full ["ownerName"; "electricianLicense"]) = true /\
  missingFields (validate_required_fields Demo.jane_full ["ownerName"; "electricianLicense"])
    = [].
Proof.
  apply (validate_required_fields_repair Demo.jane Demo.jane_full
           ["ownerName"; "electricianLicense"]).
  - intros f Hf. vm_compute in Hf. destruct Hf as [<- | []].
    exists (VStr "EL-204"). split; [by vm_compute | done].
  - intros f Hf Hok. simpl in Hf. destruct Hf as [<- | [<- | []]].
    + by vm_compute.
    + exfalso. apply Hok. vm_compute. tauto.
Defined.

Lemma mdY_truthy (d : datetime) : truthy (VStr (Strftime.mdY d)) = true.
Proof. reflexivity. Qed.

(** X13.  In the payload [fill_permit] renders, the fields missing are
    those missing from the project data other than the four keys it sets
    itself: whatever the caller gave under these keys, they are never
    missing from the payload (the year of a clock reading is not zero). *)
Theorem fill_data_missing_fields (D : gmap string value) (d1 d2 d3 d4 : datetime)
    (R : list string) :
  year d4 <> 0 ->
  missingFields (validate_required_fields (fill_data D d1 d2 d3 d4) R) =
  List.filter (fun f => negb (bool_decide (f ∈ reserved_keys)))
    (missingFields (validate_required_fields D R)).
Proof.
  intros Hyear. simpl. rewrite !missing_of_filter, filter_filter_andb.
  apply List.filter_ext. intros f.
  destruct (fill_data_lookup D d1 d2 d3 d4) as (H1 & H2 & H3 & H4 & Hframe).
  assert (truthy (VInt (year d4)) = true) as Hy.
  { simpl. apply negb_true_iff, Z.eqb_neq, Hyear. }
  case_bool_decide as Hf; simpl.
  - rewrite andb_false_r. unfold reserved_keys in Hf.
    apply list_elem_of_In in Hf. simpl in Hf. unfold field_missing.
    destruct Hf as [<- | [<- | [<- | [<- | []]]]].
    + by rewrite H1, mdY_truthy.
    + by rewrite H2, mdY_truthy.
    + by rewrite H3, mdY_truthy.
    + by rewrite H4, Hy.
  - rewrite andb_true_r. unfold field_missing. rewrite Hframe; [done | | | |];
      intros ->; apply Hf; unfold reserved_keys; set_solver.
Qed.

Lemma fill_data_missing_fields_witness :
  missingFields
    (validate_required_fields
       (fill_data Demo.jane (Demo.clock 0) (Demo.clock 1) (Demo.clock 2) (Demo.clock 3))
       ["ownerName"; "permitDate"; "electricianLicense"; "year"]) =
  List.filter (fun f => negb (bool_decide (f ∈ reserved_keys)))
    (missingFields
       (validate_required_fields Demo.jane
          ["ownerName"; "permitDate"; "electricianLicense"; "year"])).
Proof.
  apply (fill_data_missing_fields Demo.jane (Demo.clock 0) (Demo.clock 1) (Demo.clock 2)
           (Demo.clock 3) ["ownerName"; "permitDate"; "electricianLicense"; "year"]).
  simpl. lia.
Defined.

(** ** FormFiller.fill_permit, further *)

(** X14.  The payload depends on the caller's data only outside the four
    keys [fill_permit] sets: two bags give the same payload exactly when
    they agree on every other key.  The keys of the payload are those of
    the data and these four. *)
Theorem fill_data_reserved_keys (D D' : gmap string value) (d1 d2 d3 d4 : datetime) :
  (fill_data D d1 d2 d3 d4 = fill_data D' d1 d2 d3 d4 <->
   forall key, ~ In key reserved_keys -> D !! key = D' !! key) /\
  dom (fill_data D d1 d2 d3 d4) = dom D ∪ list_to_set reserved_keys.
Proof.
  destruct (fill_data_lookup D d1 d2 d3 d4) as (H1 & H2 & H3 & H4 & Hframe).
  destruct (fill_data_lookup D' d1 d2 d3 d4) as (H1' & H2' & H3' & H4' & Hframe').
  assert (forall key, ~ In key reserved_keys ->
            key <> "permitDate" /\ key <> "applicationDate" /\
            key <> "currentDate" /\ key <> "year") as Hother.
  { intros key Hkey. unfold reserved_keys in Hkey. simpl in Hkey.
    repeat split; intros ->; apply Hkey; tauto. }
  split; [split|].
  - intros Heq key Hkey. destruct (Hother key Hkey) as (Ha & Hb & Hc & Hd).
    rewrite <- (Hframe key), <- (Hframe' key) by done. by rewrite Heq.
  - intros Hagree. apply map_eq. intros key.
    destruct (decide (key = "permitDate")) as [-> | Ha]; [congruence|].
    destruct (decide (key = "applicationDate")) as [-> | Hb]; [congruence|].
    destruct (decide (key = "currentDate")) as [-> | Hc]; [congruence|].
    destruct (decide (key = "year")) as [-> | Hd]; [congruence|].
    rewrite Hframe, Hframe' by done. apply Hagree.
    unfold reserved_keys. simpl. intuition congruence.
  - unfold fill_data, reserved_keys. rewrite !dom_insert_L. simpl.
    apply set_eq. intros key. set_unfold. tauto.
Qed.

Section FillPermitEffects.

Variable R : Runtime.
Variable self : FormFiller.


(** The world a run of [fill_permit] leaves when it returns. *)
Lemma fill_permit_returned_world (template_name permit_id permit_name : string)
    (project_data : gmap string value) (w w' : World) (v : value) :
  fill_permit R self template_name permit_id permit_name project_data w = (Returned v, w') ->
  let tp := rt_joinpath R (templates_dir self) template_name in
  let payload :=
    fill_data project_data (rt_clock R (tick w)) (rt_clock R (1 + tick w)%nat)
      (rt_clock R (2 + tick w)%nat) (rt_clock R (3 + tick w)%nat) in
  let file := output_filename permit_id (Strftime.YmdHMS (rt_clock R (4 + tick w)%nat)) in
  let path := rt_joinpath R (output_dir self) file in
  tp ∈ fs_templates w /\
  w' = {| tick := (5 + tick w)%nat;
          fs_templates := fs_templates w;
          fs_files := <[path := {| doc_template := tp; doc_payload := Some payload |}]>
                        (fs_files w);
          render_log := (render_log w ++ [(tp, payload)])%list |}.
Proof.
  rewrite fill_permit_run. cbv zeta. case_bool_decide; [|done].
  destruct (rt_open_error R w _); [done|].
  destruct (rt_render_error R _ _ _); [done|].
  destruct (rt_save_error R _ _ _); [done|].
  by intros [= <- <-].
Qed.

End FillPermitEffects.

(** X15.  A submission that succeeds has read the clock five times,
    rendered once and written one document: the saved files are those of
    before with, at the output path, the template rendered with the
    payload; the files at other paths and the templates are untouched. *)
Theorem fill_permit_success_effects (R : Runtime) (self : FormFiller)
    (template_name permit_id permit_name : string)
    (project_data : gmap string value) (w w' : World) (v : value) :
  let tp := rt_joinpath R (templates_dir self) template_name in
  let payload :=
    fill_data project_data (rt_clock R (tick w)) (rt_clock R (1 + tick w)%nat)
      (rt_clock R (2 + tick w)%nat) (rt_clock R (3 + tick w)%nat) in
  let file := output_filename permit_id (Strftime.YmdHMS (rt_clock R (4 + tick w)%nat)) in
  let path := rt_joinpath R (output_dir self) file in
  let doc := {| doc_template := tp; doc_payload := Some payload |} in
  fill_permit R self template_name permit_id permit_name project_data w = (Returned v, w') ->
  tp ∈ fs_templates w /\
  fs_files w' !! path = Some doc /\
  (forall other, other <> path -> fs_files w' !! other = fs_files w !! other) /\
  render_log w' = (render_log w ++ [(tp, payload)])%list /\
  tick w' = (5 + tick w)%nat /\
  fs_templates w' = fs_templates w.
Proof.
  intros tp payload file path doc Hrun.
  apply fill_permit_returned_world in Hrun as [Hthere ->]. simpl.
  split; [done|]. split; [apply lookup_insert_eq|]. split; [|done].
  intros other Hother. by apply lookup_insert_ne.
Qed.

Lemma fill_permit_success_effects_witness :
  let w' :=
    (fill_permit Demo.runtime Demo.filler "electrical.docx" "electrical"
       "Electrical Permit" Demo.jane_full Demo.world).2 in
  let path := "output/electrical-permit-20240307-140504.docx" in
  let payload :=
    fill_data Demo.jane_full (Demo.clock 0) (Demo.clock 1) (Demo.clock 2) (Demo.clock 3) in
  "templates/electrical.docx" ∈ fs_templates Demo.world /\
  fs_files w' !! path =
    Some {| doc_template := "templates/electrical.docx"; doc_payload := Some payload |} /\
  (forall other, other <> path -> fs_files w' !! other = fs_files Demo.world !! other) /\
  render_log w' = [("templates/electrical.docx", payload)] /\
  tick w' = 5%nat /\
  fs_templates w' = fs_templates Demo.world.
Proof.
  exact (fill_permit_success_effects Demo.runtime Demo.filler "electrical.docx"
           "electrical" "Electrical Permit" Demo.jane_full Demo.world _ _ eq_refl).
Defined.



(** X17.  When the template file is not there, [fill_permit] raises
    [FileNotFoundError] with the path before it reads the clock or opens
    anything, and [fill_permit_form] for a permit of the catalog with valid
    data answers [Error: Template not found: ] and the path; the world is
    unchanged. *)
Theorem fill_permit_template_missing (R : Runtime) (permits : list Permit)
    (form_filler : FormFiller) (a : Arguments) (permit : Permit) (w : World) :
  let data := default ∅ (projectData a) in
  let tp := rt_joinpath R (templates_dir form_filler) (p_template permit) in
  get_permit_by_id permits (permitId a) = Some permit ->
  valid (validate_required_fields data (p_requiredFields permit)) = true ->
  tp ∉ fs_templates w ->
  fill_permit R form_filler (p_template permit) (p_id permit) (p_name permit) data w =
    (Raised (FileNotFoundError ("Template not found: " +:+ tp)), w) /\
  handle_call_tool R permits form_filler "fill_permit_form" (Some a) w =
    (Returned [ {| text := "Error: Template not found: " +:+ tp |} ], w).
Proof.
  intros data tp Hfound Hvalid Hgone.
  assert (fill_permit R form_filler (p_template permit) (p_id permit) (p_name permit) data w =
          (Raised (FileNotFoundError ("Template not found: " +:+ tp)), w)) as Hrun.
  { rewrite fill_permit_run. cbv zeta. fold tp. by rewrite bool_decide_eq_false_2. }
  split; [exact Hrun|].
  apply (handle_call_tool_raised R permits form_filler _ _ w w
           (FileNotFoundError ("Template not found: " +:+ tp))).
  change (dispatch R permits form_filler "fill_permit_form" (Some a) w)
    with (tool_fill_permit_form R permits form_filler (Some a) w).
  cbv beta iota delta [tool_fill_permit_form mbind M_bind arguments_get_default
    arguments_get lookup_permit mret M_ret].
  rewrite Hfound. cbv beta iota zeta. fold data. rewrite Hvalid. cbn [negb].
  by rewrite Hrun.
Qed.

Lemma fill_permit_template_missing_witness :
  fill_permit Demo.runtime Demo.filler "sign.docx" "sign" "Sign Permit" Demo.jane
    Demo.world =
    (Raised (FileNotFoundError "Template not found: templates/sign.docx"), Demo.world) /\
  handle_call_tool Demo.runtime [Scenario.sign] Demo.filler "fill_permit_form"
    (Some (Demo.args_for "sign" Demo.jane)) Demo.world =
    (Returned [ {| text := "Error: Template not found: templates/sign.docx" |} ],
     Demo.world).
Proof.
  apply (fill_permit_template_missing Demo.runtime [Scenario.sign] Demo.filler
           (Demo.args_for "sign" Demo.jane) Scenario.sign Demo.world).
  - reflexivity.
  - by vm_compute.
  - apply (bool_decide_unpack (_ ∉ _)). by vm_compute.
Defined.

(** X18.  Two submissions for the same permit id whose file-name readings
    fall in the same second go to the same file: the second overwrites the
    first, and what is saved under that name is the document of the
    second. *)
Theorem fill_permit_same_second_overwrites (R : Runtime) (self : FormFiller)
    (template1 template2 permit_id name1 name2 : string)
    (data1 data2 : gmap string value) (w w1 w2 : World) (v1 v2 : value) :
  let file := output_filename permit_id (Strftime.YmdHMS (rt_clock R (4 + tick w)%nat)) in
  let path := rt_joinpath R (output_dir self) file in
  let payload2 :=
    fill_data data2 (rt_clock R (5 + tick w)%nat) (rt_clock R (6 + tick w)%nat)
      (rt_clock R (7 + tick w)%nat) (rt_clock R (8 + tick w)%nat) in
  let doc2 :=
    {| doc_template := rt_joinpath R (templates_dir self) template2;
       doc_payload := Some payload2 |} in
  fill_permit R self template1 permit_id name1 data1 w = (Returned v1, w1) ->
  fill_permit R self template2 permit_id name2 data2 w1 = (Returned v2, w2) ->
  Strftime.YmdHMS (rt_clock R (4 + tick w)%nat) =
    Strftime.YmdHMS (rt_clock R (9 + tick w)%nat) ->
  v1 = fill_result name1 file (rt_absolute R path) /\
  v2 = fill_result name2 file (rt_absolute R path) /\
  fs_files w2 = <[path := doc2]> (fs_files w) /\
  fs_files w2 !! path = Some doc2 /\
  dom (fs_files w2) = dom (fs_files w1).
Proof.
  intros file path payload2 doc2 Hrun1 Hrun2 Hsame.
  pose proof (fill_permit_returned R self _ _ _ _ _ _ _ Hrun1) as [Hv1 _].
  pose proof (fill_permit_returned R self _ _ _ _ _ _ _ Hrun2) as [Hv2 _].
  apply fill_permit_returned_world in Hrun1 as [_ Hw1].
  apply fill_permit_returned_world in Hrun2 as [_ Hw2].
  assert (tick w1 = (5 + tick w)%nat) as Htick by (by rewrite Hw1).
  rewrite Htick in Hv2, Hw2.
  change (4 + (5 + tick w))%nat with (9 + tick w)%nat in Hv2, Hw2.
  rewrite <- Hsame in Hv2, Hw2. fold file path in Hv1, Hv2, Hw1, Hw2.
  split; [exact Hv1|]. split; [exact Hv2|].
  assert (fs_files w2 = <[path := doc2]> (fs_files w)) as Hfiles.
  { rewrite Hw2. cbn [fs_files]. rewrite Hw1. cbn [fs_files]. apply insert_insert_eq. }
  split; [exact Hfiles|]. split; [rewrite Hfiles; apply lookup_insert_eq|].
  rewrite Hfiles, Hw1. cbn [fs_files]. by rewrite !dom_insert_L.
Qed.

Lemma fill_permit_same_second_overwrites_witness :
  let w1 :=
    (fill_permit Scenario.frozen_runtime Demo.filler "electrical.docx" "electrical"
       "Electrical Permit" Demo.jane Demo.world).2 in
  let w2 :=
    (fill_permit Scenario.frozen_runtime Demo.filler "electrical.docx" "electrical"
       "Electrical Permit" Demo.jane_full w1).2 in
  let file := "electrical-permit-20240307-140509.docx" in
  let path := "output/electrical-permit-20240307-140509.docx" in
  let doc2 :=
    {| doc_template := "templates/electrical.docx";
       doc_payload :=
         Some (fill_data Demo.jane_full (Scenario.frozen_clock 5) (Scenario.frozen_clock 6)
                 (Scenario.frozen_clock 7) (Scenario.frozen_clock 8)) |} in
  fill_result "Electrical Permit" file path = fill_result "Electrical Permit" file path /\
  fill_result "Electrical Permit" file path = fill_result "Electrical Permit" file path /\
  fs_files w2 = <[path := doc2]> (fs_files Demo.world) /\
  fs_files w2 !! path = Some doc2 /\
  dom (fs_files w2) = dom (fs_files w1).
Proof.
  intros w1 w2 file path doc2.
  refine (fill_permit_same_second_overwrites Scenario.frozen_runtime Demo.filler
            "electrical.docx" "electrical.docx" "electrical" "Electrical Permit"
            "Electrical Permit" Demo.jane Demo.jane_full Demo.world w1 w2
            (fill_result "Electrical Permit" file path)
            (fill_result "Electrical Permit" file path) _ _ _).
  - vm_compute. reflexivity.
  - vm_compute. reflexivity.
  - reflexivity.
Defined.

(** ** The tool handler, further *)

Section HandlerRuns.

Variable R : Runtime.
Variable permits : list Permit.
Variable form_filler : FormFiller.

(** The boundary leaves the world as the dispatch left it. *)
Lemma handle_call_tool_world (name : string) (arguments : option Arguments) (w : World) :
  (handle_call_tool R permits form_filler name arguments w).2 =
  (dispatch R permits form_filler name arguments w).2.
Proof.
  unfold handle_call_tool, try_except.
  by destruct (dispatch R permits form_filler name arguments w) as [[r | e] w'].
Qed.

(** Without arguments the tools that read them raise at the first
    [arguments.get]. *)
Lemma dispatch_no_arguments (name : string) (w : World) :
  In name argument_tools ->
  dispatch R permits form_filler name None w =
    (Raised (AttributeError "'NoneType' object has no attribute 'get'"), w).
Proof.
  unfold argument_tools. simpl.
  intros [<- | [<- | [<- | [<- | [<- | [<- | []]]]]]]; reflexivity.
Qed.

(** The loop of [preview_all_permits] leaves the world as it is. *)
Lemma preview_all_loop_world (project_data : gmap string value)
    (required_permits : list PermitInfo) (seen : list (Permit * Validation)) (w : World) :
  (preview_all_loop permits project_data required_permits seen w).2 = w.
Proof.
  revert seen. induction required_permits as [|info rest IH]; intros seen; [done|].
  cbn [preview_all_loop]. unfold mbind at 1, M_bind at 1, subscript.
  destruct (get_permit_by_id permits (Some (i_id info))); [|done].
  cbv beta iota delta [mret M_ret]. apply IH.
Qed.

(** The tools that only read change nothing but the clock, which
    [preview_permit] reads twice. *)
Lemma dispatch_read_only (name : string) (arguments : option Arguments) (w : World) :
  In name read_only_tools ->
  let w' := (dispatch R permits form_filler name arguments w).2 in
  fs_files w' = fs_files w /\ fs_templates w' = fs_templates w /\
  render_log w' = render_log w /\ (tick w <= tick w' <= tick w + 2)%nat.
Proof.
  assert (forall w0 : World,
            fs_files w0 = fs_files w0 /\ fs_templates w0 = fs_templates w0 /\
            render_log w0 = render_log w0 /\ (tick w0 <= tick w0 <= tick w0 + 2)%nat)
    as Hsame by (intros w0; repeat split; lia).
  unfold read_only_tools. simpl.
  intros [<- | [<- | [<- | [<- | [<- | []]]]]]; destruct arguments as [a|];
    try apply Hsame.
  - change (dispatch R permits form_filler "preview_permit" (Some a) w)
      with (tool_preview_permit R permits (Some a) w).
    cbv beta iota delta [tool_preview_permit mbind M_bind arguments_get_default
      arguments_get lookup_permit mret M_ret].
    destruct (get_permit_by_id permits (permitId a)); [|apply Hsame].
    cbv beta iota zeta delta [now clock_read]. simpl. repeat split; lia.
  - change (dispatch R permits form_filler "preview_all_permits" (Some a) w)
      with (tool_preview_all_permits R permits (Some a) w).
    cbv beta iota delta [tool_preview_all_permits mbind M_bind arguments_get_default
      arguments_get mret M_ret].
    cbv beta iota zeta.
    destruct (identify_permits (rt_lower R) permits (default "" (projectDescription a)) None)
      as [|info rest]; [apply Hsame|].
    pose proof (preview_all_loop_world (default ∅ (projectData a)) (info :: rest) [] w)
      as Hloop.
    destruct (preview_all_loop permits (default ∅ (projectData a)) (info :: rest) [] w)
      as [[seen | e] w']; simpl in Hloop; subst w'; apply Hsame.
  - change (dispatch R permits form_filler "validate_permit_data" (Some a) w)
      with (tool_validate_permit_data R permits (Some a) w).
    cbv beta iota delta [tool_validate_permit_data mbind M_bind arguments_get_default
      arguments_get lookup_permit mret M_ret].
    destruct (get_permit_by_id permits (permitId a)); apply Hsame.
Qed.

End HandlerRuns.

(** X19.  [identify_required_permits], [preview_permit],
    [preview_all_permits], [list_available_permits] and
    [validate_permit_data] write nothing whatever their arguments: after the
    call the saved files, the templates and the render log are as before;
    only the clock has been read, at most twice. *)
Theorem read_only_tools_write_nothing (R : Runtime) (permits : list Permit)
    (form_filler : FormFiller) (name : string) (arguments : option Arguments) (w : World) :
  In name read_only_tools ->
  let w' := (handle_call_tool R permits form_filler name arguments w).2 in
  fs_files w' = fs_files w /\ fs_templates w' = fs_templates w /\
  render_log w' = render_log w /\ (tick w <= tick w' <= tick w + 2)%nat.
Proof.
  intros Hname. cbv zeta. rewrite handle_call_tool_world.
  by apply dispatch_read_only.
Qed.

Lemma read_only_tools_write_nothing_witness :
  let w' :=
    (handle_call_tool Demo.runtime Demo.catalog Demo.filler "preview_permit"
       (Some (Demo.args_for "electrical" Demo.jane_full)) Demo.world).2 in
  fs_files w' = fs_files Demo.world /\ fs_templates w' = fs_templates Demo.world /\
  render_log w' = render_log Demo.world /\
  (tick Demo.world <= tick w' <= tick Demo.world + 2)%nat.
Proof.
  apply (read_only_tools_write_nothing Demo.runtime Demo.catalog Demo.filler
           "preview_permit" (Some (Demo.args_for "electrical" Demo.jane_full)) Demo.world).
  unfold read_only_tools. simpl. tauto.
Defined.

(** X20.  A call without an argument bag ([arguments] is [None]) of any
    tool that reads its arguments is answered with the text of the
    [AttributeError], and nothing has changed; [list_available_permits],
    which reads none, answers as it does with arguments. *)
Theorem handle_call_tool_without_arguments (R : Runtime) (permits : list Permit)
    (form_filler : FormFiller) (name : string) (a : Arguments) (w : World) :
  In name argument_tools ->
  handle_call_tool R permits form_filler name None w =
    (Returned [ {| text := "Error: 'NoneType' object has no attribute 'get'" |} ], w) /\
  handle_call_tool R permits form_filler "list_available_permits" None w =
    handle_call_tool R permits form_filler "list_available_permits" (Some a) w.
Proof.
  intros Hname. split; [|reflexivity].
  apply (handle_call_tool_raised R permits form_filler name None w w
           (AttributeError "'NoneType' object has no attribute 'get'")).
  by apply dispatch_no_arguments.
Qed.

Lemma handle_call_tool_without_arguments_witness :
  handle_call_tool Demo.runtime Demo.catalog Demo.filler "fill_all_required_permits" None
    Demo.world =
    (Returned [ {| text := "Error: 'NoneType' object has no attribute 'get'" |} ],
     Demo.world) /\
  handle_call_tool Demo.runtime Demo.catalog Demo.filler "list_available_permits" None
    Demo.world =
    handle_call_tool Demo.runtime Demo.catalog Demo.filler "list_available_permits"
      (Some (Demo.args "wiring" Demo.jane)) Demo.world.
Proof.
  apply (handle_call_tool_without_arguments Demo.runtime Demo.catalog Demo.filler
           "fill_all_required_permits" (Demo.args "wiring" Demo.jane) Demo.world).
  unfold argument_tools. simpl. tauto.
Defined.

(** The loop of [preview_all_permits] returns one pair of permit and
    validation for each resolved permit, in order. *)
Lemma preview_all_loop_seen (permits : list Permit) (project_data : gmap string value)
    (required_permits : list PermitInfo) :
  (forall info, In info required_permits ->
     exists P, In P permits /\ p_id P = i_id info) ->
  forall (seen : list (Permit * Validation)) (w : World),
  exists more,
    preview_all_loop permits project_data required_permits seen w =
      (Returned (seen ++ more)%list, w) /\
    Forall2
      (fun info pv =>
         get_permit_by_id permits (Some (i_id info)) = Some pv.1 /\
         pv.2 = validate_required_fields project_data (p_requiredFields pv.1))
      required_permits more.
Proof.
  induction required_permits as [|info rest IH]; intros Hcatalog seen w.
  - exists []. split; [by rewrite app_nil_r | constructor].
  - destruct (Hcatalog info) as [P [HP Hid]]; [by left|].
    destruct (get_permit_by_id_some permits P HP) as [permit [Hget _]].
    rewrite Hid in Hget.
    destruct (IH (fun i Hi => Hcatalog i (or_intror Hi))
                (seen ++ [(permit,
                           validate_required_fields project_data (p_requiredFields permit))])%list
                w) as [more [Hloop Hmore]].
    exists ((permit, validate_required_fields project_data (p_requiredFields permit)) :: more).
    split; [|constructor; [split; [exact Hget | reflexivity] | exact Hmore]].
    cbn [preview_all_loop]. unfold mbind at 1, M_bind at 1, subscript. rewrite Hget.
    cbv beta iota delta [mret M_ret]. cbv zeta. rewrite Hloop. by rewrite <- app_assoc.
Qed.

(** X21.  [preview_all_permits] on a description that resolves to some
    permits lays out one block for each permit resolved from the
    description alone, in catalog order, with the result of validating the
    project data against the required fields of that permit; it reads no
    work types, so the arguments' [workTypes] change nothing, and it leaves
    the world as it is. *)
Theorem preview_all_permits_report (R : Runtime) (permits : list Permit)
    (form_filler : FormFiller) (a : Arguments) (work_types : option (list string))
    (w : World) :
  let required :=
    identify_permits (rt_lower R) permits (default "" (projectDescription a)) None in
  let data := default ∅ (projectData a) in
  required <> [] ->
  exists seen,
    handle_call_tool R permits form_filler "preview_all_permits"
      (Some (with_work_types work_types a)) w =
      (Returned [ {| text := rt_preview_all_layout R seen data |} ], w) /\
    Forall2
      (fun info pv =>
         get_permit_by_id permits (Some (i_id info)) = Some pv.1 /\
         pv.2 = validate_required_fields data (p_requiredFields pv.1))
      required seen.
Proof.
  intros required data Hsome.
  destruct (preview_all_loop_seen permits data required) with (seen := @nil (Permit * Validation))
    (w := w) as [seen [Hloop Hseen]].
  { intros info Hinfo. by apply identify_permits_found in Hinfo. }
  exists seen. split; [|done].
  apply handle_call_tool_returned.
  change (dispatch R permits form_filler "preview_all_permits"
            (Some (with_work_types work_types a)) w)
    with (tool_preview_all_permits R permits (Some (with_work_types work_types a)) w).
  cbv beta iota delta [tool_preview_all_permits mbind M_bind arguments_get_default
    arguments_get mret M_ret].
  cbv beta iota zeta. cbn [with_work_types projectDescription projectData].
  fold required. fold data.
  destruct required as [|info rest] eqn:Hreq; [done|].
  by rewrite Hloop.
Qed.

Lemma preview_all_permits_report_witness :
  exists seen,
    handle_call_tool Demo.runtime Demo.catalog Demo.filler "preview_all_permits"
      (Some (with_work_types (Some ["addition"]) (Demo.args "New wiring" Demo.jane)))
      Demo.world =
      (Returned [ {| text := rt_preview_all_layout Demo.runtime seen Demo.jane |} ],
       Demo.world) /\
    Forall2
      (fun info pv =>
         get_permit_by_id Demo.catalog (Some (i_id info)) = Some pv.1 /\
         pv.2 = validate_required_fields Demo.jane (p_requiredFields pv.1))
      [permit_info Demo.electrical] seen.
Proof.
  apply (preview_all_permits_report Demo.runtime Demo.catalog Demo.filler
           (Demo.args "New wiring" Demo.jane) (Some ["addition"]) Demo.world).
  vm_compute. discriminate.
Defined.

(** A request whose only keyword is in the work types: nothing to preview,
    one permit to fill. *)
Example preview_all_and_fill_all_differ :
  let a :=
    {| projectDescription := Some "Garage";
       workTypes := Some ["wiring"];
       permitId := None;
       projectData := Some Demo.jane_full |} in
  (handle_call_tool Demo.runtime Demo.catalog Demo.filler "preview_all_permits" (Some a)
     Demo.world).1 =
    Returned [ {| text := "No permits required for this project description." |} ] /\
  (handle_call_tool Demo.runtime Demo.catalog Demo.filler "fill_all_required_permits"
     (Some a) Demo.world).1 =
    Returned
      [ {| text :=
             Demo.dumps
               (fill_all_payload
                  [fill_result "Electrical Permit" "electrical-permit-20240307-140504.docx"
                     "output/electrical-permit-20240307-140504.docx"]) |} ].
Proof. split; vm_compute; reflexivity. Qed.

(** X22.  When the request resolves to no permit,
    [fill_all_required_permits] and [preview_all_permits] answer with a plain
    sentence, not with a JSON payload or a report, and
    [identify_required_permits] with a count of zero; nothing has
    changed. *)
Theorem nothing_resolved_answers (R : Runtime) (permits : list Permit)
    (form_filler : FormFiller) (a : Arguments) (w : World) :
  let description := default "" (projectDescription a) in
  identify_permits (rt_lower R) permits description (Some (default [] (workTypes a))) = [] ->
  identify_permits (rt_lower R) permits description None = [] ->
  handle_call_tool R permits form_filler "fill_all_required_permits" (Some a) w =
    (Returned [ {| text := "No permits required for this project" |} ], w) /\
  handle_call_tool R permits form_filler "preview_all_permits" (Some a) w =
    (Returned [ {| text := "No permits required for this project description." |} ], w) /\
  handle_call_tool R permits form_filler "identify_required_permits" (Some a) w =
    (Returned
       [ {| text :=
              rt_json_dumps R
                (VDict [("requiredPermits", VList []);
                        ("count", VInt 0);
                        ("message", VStr "No permits required based on description")]) |} ],
     w).
Proof.
  intros description Hnone Hnone'. split; [|split]; apply handle_call_tool_returned.
  - change (dispatch R permits form_filler "fill_all_required_permits" (Some a) w)
      with (tool_fill_all_required_permits R permits form_filler (Some a) w).
    cbv beta iota delta [tool_fill_all_required_permits mbind M_bind arguments_get_default
      arguments_get mret M_ret].
    cbv beta iota zeta. fold description. by rewrite Hnone.
  - change (dispatch R permits form_filler "preview_all_permits" (Some a) w)
      with (tool_preview_all_permits R permits (Some a) w).
    cbv beta iota delta [tool_preview_all_permits mbind M_bind arguments_get_default
      arguments_get mret M_ret].
    cbv beta iota zeta. fold description. by rewrite Hnone'.
  - change (dispatch R permits form_filler "identify_required_permits" (Some a) w)
      with (tool_identify_required_permits R permits (Some a) w).
    cbv beta iota delta [tool_identify_required_permits mbind M_bind arguments_get_default
      arguments_get mret M_ret].
    cbv beta iota zeta. fold description. by rewrite Hnone.
Qed.

Lemma nothing_resolved_answers_witness :
  let a := Demo.args "Repaint the hall" Demo.jane in
  handle_call_tool Demo.runtime Demo.catalog Demo.filler "fill_all_required_permits"
    (Some a) Demo.world =
    (Returned [ {| text := "No permits required for this project" |} ], Demo.world) /\
  handle_call_tool Demo.runtime Demo.catalog Demo.filler "preview_all_permits" (Some a)
    Demo.world =
    (Returned [ {| text := "No permits required for this project description." |} ],
     Demo.world) /\
  handle_call_tool Demo.runtime Demo.catalog Demo.filler "identify_required_permits"
    (Some a) Demo.world =
    (Returned
       [ {| text :=
              Demo.dumps
                (VDict [("requiredPermits", VList []);
                        ("count", VInt 0);
                        ("message", VStr "No permits required based on description")]) |} ],
     Demo.world).
Proof.
  apply (nothing_resolved_answers Demo.runtime Demo.catalog Demo.filler
           (Demo.args "Repaint the hall" Demo.jane) Demo.world); reflexivity.
Defined.

Section FillPermitFormRuns.

Variable R : Runtime.
Variable permits : list Permit.
Variable form_filler : FormFiller.

(** [fill_permit_form] on an argument bag, step by step. *)
Lemma tool_fill_permit_form_run (a : Arguments) (w : World) :
  tool_fill_permit_form R permits form_filler (Some a) w =
  let data := default ∅ (projectData a) in
  match get_permit_by_id permits (permitId a) with
  | None => (Raised (ValueError ("Permit not found: " +:+ str_opt (permitId a))), w)
  | Some permit =>
      let validation := validate_required_fields data (p_requiredFields permit) in
      if valid validation
      then
        match fill_permit R form_filler (p_template permit) (p_id permit) (p_name permit)
                data w with
        | (Returned result, w') => (Returned (respond_json R result), w')
        | (Raised e, w') => (Raised e, w')
        end
      else (Returned (respond_json R (missing_payload permit validation)), w)
  end.
Proof.
  cbv beta iota delta [tool_fill_permit_form mbind M_bind arguments_get_default
    arguments_get lookup_permit mret M_ret].
  destruct (get_permit_by_id permits (permitId a)) as [permit|]; [|done].
  cbv beta iota zeta.
  destruct (valid (validate_required_fields (default ∅ (projectData a))
                     (p_requiredFields permit))); [|done].
  cbn [negb].
  by destruct (fill_permit R form_filler (p_template permit) (p_id permit) (p_name permit)
                 (default ∅ (projectData a)) w) as [[v | e] w'].
Qed.

End FillPermitFormRuns.

(** X23.  Validation is the gate of [fill_permit_form]: if the call has
    changed the world at all (read the clock, rendered or saved), then it
    had arguments, the permit is in the catalog, the project data passed
    the validation of its required fields, the template file is there and
    opened. *)
Theorem fill_permit_form_gate (R : Runtime) (permits : list Permit)
    (form_filler : FormFiller) (arguments : option Arguments) (w : World) :
  (handle_call_tool R permits form_filler "fill_permit_form" arguments w).2 <> w ->
  exists a permit,
    arguments = Some a /\
    get_permit_by_id permits (permitId a) = Some permit /\
    valid (validate_required_fields (default ∅ (projectData a)) (p_requiredFields permit))
      = true /\
    rt_joinpath R (templates_dir form_filler) (p_template permit) ∈ fs_templates w /\
    rt_open_error R w (rt_joinpath R (templates_dir form_filler) (p_template permit)) = None.
Proof.
  rewrite handle_call_tool_world. destruct arguments as [a|]; [|done].
  change (dispatch R permits form_filler "fill_permit_form" (Some a) w)
    with (tool_fill_permit_form R permits form_filler (Some a) w).
  rewrite tool_fill_permit_form_run. cbv zeta.
  destruct (get_permit_by_id permits (permitId a)) as [permit|] eqn:Hfound; [|done].
  destruct (valid _) eqn:Hvalid; [|done].
  rewrite fill_permit_run. cbv zeta. case_bool_decide as Hthere; [|done].
  destruct (rt_open_error R w _) eqn:Hopen; [done|].
  intros _. exists a, permit. by repeat split.
Qed.

Lemma fill_permit_form_gate_witness :
  exists a permit,
    Some (Demo.args_for "electrical" Demo.jane_full) = Some a /\
    get_permit_by_id Demo.catalog (permitId a) = Some permit /\
    valid (validate_required_fields (default ∅ (projectData a)) (p_requiredFields permit))
      = true /\
    rt_joinpath Demo.runtime (templates_dir Demo.filler) (p_template permit)
      ∈ fs_templates Demo.world /\
    rt_open_error Demo.runtime Demo.world
      (rt_joinpath Demo.runtime (templates_dir Demo.filler) (p_template permit)) = None.
Proof.
  apply (fill_permit_form_gate Demo.runtime Demo.catalog Demo.filler
           (Some (Demo.args_for "electrical" Demo.jane_full)) Demo.world).
  intros H. apply (f_equal tick) in H. vm_compute in H. discriminate H.
Defined.

(** X24.  With a permit of the catalog, valid data, the template on disk
    and an engine that does not fail, [fill_permit_form] answers with the
    payload of the filled form, [success] true and the file name made of
    the permit id and the time, and the document rendered with the payload
    is saved at the output path. *)
Theorem fill_permit_form_success (R : Runtime) (permits : list Permit)
    (form_filler : FormFiller) (a : Arguments) (permit : Permit) (w : World) :
  let data := default ∅ (projectData a) in
  let tp := rt_joinpath R (templates_dir form_filler) (p_template permit) in
  let payload :=
    fill_data data (rt_clock R (tick w)) (rt_clock R (1 + tick w)%nat)
      (rt_clock R (2 + tick w)%nat) (rt_clock R (3 + tick w)%nat) in
  let file :=
    output_filename (p_id permit) (Strftime.YmdHMS (rt_clock R (4 + tick w)%nat)) in
  let path := rt_joinpath R (output_dir form_filler) file in
  get_permit_by_id permits (permitId a) = Some permit ->
  valid (validate_required_fields data (p_requiredFields permit)) = true ->
  tp ∈ fs_templates w ->
  (forall w0 p, rt_open_error R w0 p = None) ->
  (forall w0 p d, rt_render_error R w0 p d = None) ->
  (forall w0 doc p, rt_save_error R w0 doc p = None) ->
  exists w',
    handle_call_tool R permits form_filler "fill_permit_form" (Some a) w =
      (Returned
         [ {| text :=
                rt_json_dumps R
                  (VDict [("success", VBool true);
                          ("permitName", VStr (p_name permit));
                          ("outputFile", VStr file);
                          ("outputPath", VStr (rt_absolute R path));
                          ("message",
                           VStr (p_name permit +:+ " has been filled and saved"))]) |} ],
       w') /\
    fs_files w' !! path = Some {| doc_template := tp; doc_payload := Some payload |} /\
    render_log w' = (render_log w ++ [(tp, payload)])%list.
Proof.
  intros data tp payload file path Hfound Hvalid Hthere Hopen Hrender Hsave.
  eexists. split.
  - apply handle_call_tool_returned.
    change (dispatch R permits form_filler "fill_permit_form" (Some a) w)
      with (tool_fill_permit_form R permits form_filler (Some a) w).
    rewrite tool_fill_permit_form_run. cbv zeta. rewrite Hfound. fold data.
    rewrite Hvalid, fill_permit_run. cbv zeta. fold tp.
    rewrite bool_decide_eq_true_2 by done. rewrite Hopen, Hrender, Hsave.
    reflexivity.
  - simpl. split; [apply lookup_insert_eq | done].
Qed.

Lemma fill_permit_form_success_witness :
  let payload :=
    fill_data Demo.jane_full (Demo.clock 0) (Demo.clock 1) (Demo.clock 2) (Demo.clock 3) in
  let file := "electrical-permit-20240307-140504.docx" in
  let path := "output/electrical-permit-20240307-140504.docx" in
  exists w',
    handle_call_tool Demo.runtime Demo.catalog Demo.filler "fill_permit_form"
      (Some (Demo.args_for "electrical" Demo.jane_full)) Demo.world =
      (Returned
         [ {| text :=
                Demo.dumps
                  (VDict [("success", VBool true);
                          ("permitName", VStr "Electrical Permit");
                          ("outputFile", VStr file);
                          ("outputPath", VStr path);
                          ("message", VStr "Electrical Permit has been filled and saved")]) |} ],
       w') /\
    fs_files w' !! path =
      Some {| doc_template := "templates/electrical.docx"; doc_payload := Some payload |} /\
    render_log w' = [("templates/electrical.docx", payload)].
Proof.
  apply (fill_permit_form_success Demo.runtime Demo.catalog Demo.filler
           (Demo.args_for "electrical" Demo.jane_full) Demo.electrical Demo.world).
  - reflexivity.
  - by vm_compute.
  - apply (bool_decide_unpack (_ ∈ _)). by vm_compute.
  - reflexivity.
  - reflexivity.
  - reflexivity.
Defined.

(** *** What every call keeps *)

Lemma world_extends_refl (w : World) : world_extends w w.
Proof.
  split; [lia|]. split; [done|]. split; [done|]. exists []. by rewrite app_nil_r.
Qed.

Lemma world_extends_trans (w1 w2 w3 : World) :
  world_extends w1 w2 -> world_extends w2 w3 -> world_extends w1 w3.
Proof.
  intros (Ht & Hf & Hd & more & Hl) (Ht' & Hf' & Hd' & more' & Hl').
  split; [lia|]. split; [congruence|]. split; [by etrans|].
  exists (more ++ more')%list. by rewrite Hl', Hl, <- app_assoc.
Qed.

Lemma world_extends_clock_read (w : World) : world_extends w (clock_read w).
Proof.
  split; [simpl; lia|]. split; [done|]. split; [done|]. exists []. simpl.
  by rewrite app_nil_r.
Qed.

Lemma world_extends_render_logged (tp : string) (data : gmap string value) (w : World) :
  world_extends w (render_logged tp data w).
Proof. split; [done|]. split; [done|]. split; [done|]. by exists [(tp, data)]. Qed.

Lemma world_extends_file_saved (path : string) (doc : Docx) (w : World) :
  world_extends w (file_saved path doc w).
Proof.
  split; [done|]. split; [done|]. split.
  - simpl. rewrite dom_insert_L. apply union_subseteq_r.
  - exists []. simpl. by rewrite app_nil_r.
Qed.

Section WorldExtends.

Variable R : Runtime.
Variable permits : list Permit.
Variable form_filler : FormFiller.

Lemma fill_permit_extends (template_name permit_id permit_name : string)
    (project_data : gmap string value) (w : World) :
  world_extends w
    (fill_permit R form_filler template_name permit_id permit_name project_data w).2.
Proof.
  rewrite fill_permit_run. cbv zeta.
  set (w4 := clock_read (clock_read (clock_read (clock_read w)))).
  assert (world_extends w w4) as H4.
  { unfold w4. repeat (eapply world_extends_trans; [|apply world_extends_clock_read]).
    apply world_extends_refl. }
  case_bool_decide; [|apply world_extends_refl].
  destruct (rt_open_error R w _); [apply world_extends_refl|].
  set (w4' := render_logged _ _ w4).
  assert (world_extends w w4') as H4'.
  { eapply world_extends_trans; [exact H4 | apply world_extends_render_logged]. }
  destruct (rt_render_error R w4 _ _); [exact H4'|].
  assert (world_extends w (clock_read w4')) as H5.
  { eapply world_extends_trans; [exact H4' | apply world_extends_clock_read]. }
  destruct (rt_save_error R _ _ _); [exact H5|].
  eapply world_extends_trans; [exact H5 | apply world_extends_file_saved].
Qed.

Lemma fill_one_extends (project_data : gmap string value) (permit_info : PermitInfo)
    (w : World) :
  world_extends w
    (try_except (fill_one R permits form_filler project_data permit_info)
       (fun e => mret (error_entry permit_info e)) w).2.
Proof.
  unfold try_except, fill_one.
  cbv beta iota delta [mbind M_bind subscript mret M_ret].
  destruct (get_permit_by_id permits (Some (i_id permit_info))) as [permit|];
    [|apply world_extends_refl].
  cbv beta iota zeta.
  destruct (valid _); cbn [negb]; [|apply world_extends_refl].
  pose proof (fill_permit_extends (p_template permit) (p_id permit) (p_name permit)
                project_data w) as H.
  by destruct (fill_permit R form_filler _ _ _ _ w) as [[v | e] w'].
Qed.

Lemma fill_all_loop_extends (project_data : gmap string value)
    (required_permits : list PermitInfo) (results : list value) (w : World) :
  world_extends w
    (fill_all_loop R permits form_filler project_data required_permits results w).2.
Proof.
  revert results w.
  induction required_permits as [|info rest IH]; intros results w;
    [apply world_extends_refl|].
  cbn [fill_all_loop]. unfold mbind at 1, M_bind at 1.
  pose proof (fill_one_extends project_data info w) as Hone.
  destruct (try_except _ _ w) as [[entry | e] w1]; [|exact Hone].
  eapply world_extends_trans; [exact Hone | apply IH].
Qed.

Lemma dispatch_extends (name : string) (arguments : option Arguments) (w : World) :
  world_extends w (dispatch R permits form_filler name arguments w).2.
Proof.
  destruct (In_dec string_dec name read_only_tools) as [Hread | Hwrite].
  { destruct (dispatch_read_only R permits form_filler name arguments w Hread)
      as (Hf & Ht & Hl & Hc).
    split; [lia|]. split; [done|]. split; [by rewrite Hf|]. exists [].
    by rewrite Hl, app_nil_r. }
  destruct (decide (name = "fill_permit_form")) as [-> | Hne1].
  { destruct arguments as [a|]; [|apply world_extends_refl].
    change (dispatch R permits form_filler "fill_permit_form" (Some a) w)
      with (tool_fill_permit_form R permits form_filler (Some a) w).
    rewrite tool_fill_permit_form_run. cbv zeta.
    destruct (get_permit_by_id permits (permitId a)) as [permit|];
      [|apply world_extends_refl].
    destruct (valid _); [|apply world_extends_refl].
    pose proof (fill_permit_extends (p_template permit) (p_id permit) (p_name permit)
                  (default ∅ (projectData a)) w) as H.
    by destruct (fill_permit R form_filler _ _ _ _ w) as [[v | e] w']. }
  destruct (decide (name = "fill_all_required_permits")) as [-> | Hne2].
  { destruct arguments as [a|]; [|apply world_extends_refl].
    change (dispatch R permits form_filler "fill_all_required_permits" (Some a) w)
      with (tool_fill_all_required_permits R permits form_filler (Some a) w).
    cbv beta iota delta [tool_fill_all_required_permits mbind M_bind arguments_get_default
      arguments_get mret M_ret].
    cbv beta iota zeta.
    destruct (identify_permits _ _ _ _) as [|info rest]; [apply world_extends_refl|].
    pose proof (fill_all_loop_extends (default ∅ (projectData a)) (info :: rest) [] w) as H.
    by destruct (fill_all_loop R permits form_filler _ _ _ w) as [[results | e] w']. }
  rewrite dispatch_unknown; [apply world_extends_refl|].
  unfold tool_names, read_only_tools in *. simpl in *. intuition congruence.
Qed.

End WorldExtends.

(** X25.  Whatever the tool and its arguments, a call leaves the templates
    as they are and every document saved before still saved (a same-named
    one may be overwritten), appends to the render log without touching
    what was logged, and does not turn the clock back. *)
Theorem handle_call_tool_keeps_documents (R : Runtime) (permits : list Permit)
    (form_filler : FormFiller) (name : string) (arguments : option Arguments) (w : World) :
  let w' := (handle_call_tool R permits form_filler name arguments w).2 in
  fs_templates w' = fs_templates w /\
  (forall path, is_Some (fs_files w !! path) -> is_Some (fs_files w' !! path)) /\
  (exists more, render_log w' = (render_log w ++ more)%list) /\
  (tick w <= tick w')%nat.
Proof.
  cbv zeta. rewrite handle_call_tool_world.
  destruct (dispatch_extends R permits form_filler name arguments w)
    as (Ht & Hf & Hd & Hl).
  split; [done|]. split; [|by split].
  intros path Hpath. apply elem_of_dom. apply Hd. by apply elem_of_dom.
Qed.



(** *** The tools listed and the tools handled *)

(** X27.  The tools [handle_list_tools] lists are the tools
    [handle_call_tool] handles: a name is answered as an unknown tool for
    all arguments exactly when it is not listed.  The listed names are
    distinct, and each schema requires only keys it declares. *)
Theorem listed_tools_are_handled (R : Runtime) (permits : list Permit)
    (form_filler : FormFiller) (name : string) :
  ((forall arguments w,
      dispatch R permits form_filler name arguments w =
        (Raised (ValueError ("Unknown tool: " +:+ name)), w)) <->
   ~ In name (map tool_name handle_list_tools)) /\
  NoDup (map tool_name handle_list_tools) /\
  Forall
    (fun tool => forall key, In key (required_arguments tool) ->
                             In key (declared_properties tool))
    handle_list_tools.
Proof.
  split; [split|split].
  - intros Hunknown Hlisted.
    assert (World) as w by exact Demo.world.
    specialize (Hunknown None w).
    change (map tool_name handle_list_tools) with tool_names in Hlisted.
    unfold tool_names in Hlisted. simpl in Hlisted.
    destruct Hlisted as [<- | [<- | [<- | [<- | [<- | [<- | [<- | []]]]]]]];
      discriminate Hunknown.
  - intros Hnot arguments w. by apply dispatch_unknown.
  - apply (bool_decide_unpack (NoDup (map tool_name handle_list_tools))). by vm_compute.
  - unfold handle_list_tools.
    repeat (apply Forall_cons; split; [vm_compute; tauto|]). constructor.
Qed.

(** ** The field rows of the previews *)

(** X28.  In the field list of a preview a required field is marked as not
    provided exactly when the project data has no entry for it or has the
    text [[NOT PROVIDED]] itself.  So the rows and the validation disagree
    in two cases: a field given as [None], zero or an empty text is reported
    missing but shown as provided, and a field given as [[NOT PROVIDED]]
    passes the validation but is shown as not provided. *)
Theorem preview_rows_and_validation (D : gmap string value) (f : string) :
  (marked_not_provided (preview_value D f) = true <->
   D !! f = None \/ D !! f = Some (VStr "[NOT PROVIDED]")) /\
  (field_missing D f = true /\ marked_not_provided (preview_value D f) = false <->
   exists v, D !! f = Some v /\ truthy v = false) /\
  (field_missing D f = false /\ marked_not_provided (preview_value D f) = true <->
   D !! f = Some (VStr "[NOT PROVIDED]")).
Proof.
  assert (forall v, marked_not_provided v = true <-> v = VStr "[NOT PROVIDED]") as Hmark.
  { intros v. destruct v; simpl; try (split; [done | discriminate]).
    rewrite bool_decide_eq_true. split; [by intros -> | by intros [= ->]]. }
  unfold preview_value, field_missing. destruct (D !! f) as [v|]; simpl.
  - split; [|split].
    + rewrite Hmark. split; [intros ->; by right | by intros [H | [= ->]]].
    + split.
      * intros [Hv _]. exists v. split; [done | by apply negb_true_iff].
      * intros [v' [[= <-] Hv]]. split; [by rewrite Hv|].
        destruct (marked_not_provided v) eqn:Hm; [|done].
        apply Hmark in Hm. by subst v.
    + split.
      * intros [_ Hm]. apply Hmark in Hm. by subst v.
      * intros [= ->]. done.
  - split; [|split].
    + split; [by left | done].
    + split; [by intros [_ H] | by intros [v [H _]]].
    + split; [by intros [H _] | done].
Qed.

(** A permit without triggers is resolved by no request. *)
Example dormant_is_never_identified :
  identify_permits Str.ascii_lower [Demo.building; Scenario.dormant]
    "Construction of a dormant volcano observatory" (Some ["dormant"]) =
  [permit_info Demo.building].
Proof. reflexivity. Qed.
